(** * atropos/filters.py: read predicates, single/paired wrappers and the filter chain

    A shallow embedding of [src/atropos/filters.py].  Python objects become
    records, [__init__] and [__call__] become [init] and [call] in a module
    named after the class, mutation of [self] becomes explicit state passing
    (a method returns its result together with the object after the call),
    and a raised exception is the [Raise] case of [result]. *)

From Stdlib Require Import ZArith List String Ascii Bool Lia Permutation.
From Stdlib Require Import Floats Uint63.
Import ListNotations.
Local Open Scope string_scope.
Local Open Scope list_scope.
Local Open Scope Z_scope.

Set Warnings "-inexact-float".

(** ** Exceptions and the error monad *)

Inductive exn : Type :=
| ValueError (msg : string)
| AssertionError
| AttributeError.

Inductive result (A : Type) : Type :=
| Ok (a : A)
| Raise (e : exn).

Arguments Ok {A} a.
Arguments Raise {A} e.

Definition bind {A B : Type} (m : result A) (k : A -> result B) : result B :=
  match m with
  | Ok a => k a
  | Raise e => Raise e
  end.

Declare Scope py_scope.
Delimit Scope py_scope with py.
Notation "x <- m ;; k" := (bind m (fun x => k))
  (at level 100, m at next level, right associativity) : py_scope.
Notation "' p <- m ;; k" := (bind m (fun x => match x with p => k end))
  (at level 100, p pattern, m at next level, right associativity) : py_scope.
Local Open Scope py_scope.

(** ** Verdicts

    [DISCARD = True], [KEEP = False]. *)

Definition DISCARD : bool := true.
Definition KEEP : bool := false.

(** ** Reads *)

(** Modelled from the spec: the read class is defined outside
    [filters.py].  A read has a sequence of nucleotide symbols, a length
    (what [len(read)] returns), an optional trim-match marker and a merged
    flag.  The length is kept as a field of its own, so that nothing below
    depends on how the read computes it. *)
Record Read : Type := mkRead {
  sequence : string;
  read_length : nat;
  trim_match : option unit;
  merged : bool
}.

(** [len(read)], a Python int. *)
Definition len (read : Read) : Z := Z.of_nat (read_length read).

(** A predicate object, applied to a read: [True] means discard. *)
Definition Predicate : Type := Read -> bool.

(** [self.filter(x)] for a Python value [x] that is a read or [None].  All
    predicates of the module but [NoFilter] read an attribute or the length
    of their argument, which raises on [None]; the model lets the
    application to [None] raise for every predicate. *)
Definition call_predicate (f : Predicate) (x : option Read) : result bool :=
  match x with
  | Some read => Ok (f read)
  | None => Raise AttributeError
  end.

(** ** Strings and numbers as Python has them *)

(** [str.lower] on the ASCII range. *)
Definition lower_char (c : ascii) : ascii :=
  let n := N_of_ascii c in
  if (65 <=? n)%N && (n <=? 90)%N then ascii_of_N (n + 32) else c.

Fixpoint lower (s : string) : string :=
  match s with
  | EmptyString => EmptyString
  | String c s' => String (lower_char c) (lower s')
  end.

(** [s.count(c)] for a one-character pattern [c]. *)
Fixpoint count (c : ascii) (s : string) : Z :=
  match s with
  | EmptyString => 0
  | String c' s' => (if Ascii.eqb c' c then 1 else 0) + count c s'
  end.

(** An [int] as a binary64 float; exact for [0 <= z < 2^53], which covers
    every count and length of a read. *)
Definition float_of_int (z : Z) : float := PrimFloat.of_uint63 (Uint63.of_Z z).

(** [a / b] on two ints: Python 3 true division, a float. *)
Definition truediv (a b : Z) : float :=
  PrimFloat.div (float_of_int a) (float_of_int b).

(** ** The predicates *)

Module MergedReadFilter.
Definition call (read : Read) : bool := merged read.
End MergedReadFilter.

Module TooShortReadFilter.
Record t : Type := mk { minimum_length : Z }.
Definition init (minimum_length : Z) : t := mk minimum_length.
Definition call (self : t) (read : Read) : bool :=
  len read <? minimum_length self.
End TooShortReadFilter.

Module TooLongReadFilter.
Record t : Type := mk { maximum_length : Z }.
Definition init (maximum_length : Z) : t := mk maximum_length.
Definition call (self : t) (read : Read) : bool :=
  maximum_length self <? len read.
End TooLongReadFilter.

Module NContentFilter.
Record t : Type := mk { is_proportion : bool; cutoff : float }.

(** [assert count >= 0], then the mode and the cutoff are stored. *)
Definition init (count : float) : result t :=
  if PrimFloat.leb 0 count
  then Ok {| is_proportion := PrimFloat.ltb count 1; cutoff := count |}
  else Raise AssertionError.

Definition n_count (read : Read) : Z := count "n"%char (lower (sequence read)).

(** The verdict of [__call__]; [x > y] on floats is [y < x]. *)
Definition verdict (self : t) (read : Read) : bool :=
  if is_proportion self then
    if len read =? 0 then false
    else PrimFloat.ltb (cutoff self) (truediv (n_count read) (len read))
  else PrimFloat.ltb (cutoff self) (float_of_int (n_count read)).

(** [__call__] assigns nothing to [self]: the object after the call is the
    object before it. *)
Definition call (self : t) (read : Read) : bool * t := (verdict self read, self).

(** The object after a run of calls, one per read. *)
Fixpoint after_calls (self : t) (reads : list Read) : t :=
  match reads with
  | [] => self
  | read :: rest => after_calls (snd (call self read)) rest
  end.
End NContentFilter.

Module UntrimmedFilter.
Definition call (read : Read) : bool :=
  match trim_match read with None => true | Some _ => false end.
End UntrimmedFilter.

Module TrimmedFilter.
Definition call (read : Read) : bool :=
  match trim_match read with None => false | Some _ => true end.
End TrimmedFilter.

Module NoFilter.
Definition call (read : Read) : bool := false.
End NoFilter.

(** ** The wrappers *)

Module SingleWrapper.
Record t : Type := mk { filtered : Z; filter : Predicate }.

Definition init (f : Predicate) : t := {| filtered := 0; filter := f |}.

Definition call (self : t) (read1 : Read) (read2 : option Read)
  : result (bool * t) :=
  b <- call_predicate (filter self) (Some read1) ;;
  if b then
    Ok (DISCARD, {| filtered := filtered self + 1; filter := filter self |})
  else Ok (KEEP, self).
End SingleWrapper.

Module PairedWrapper.
Record t : Type := mk { filtered : Z; filter : Predicate; min_affected : Z }.

Definition init (f : Predicate) (min_affected : Z) : result t :=
  if negb ((min_affected =? 1) || (min_affected =? 2))
  then Raise (ValueError "min_affected must be 1 or 2")
  else Ok {| filtered := 0; filter := f; min_affected := min_affected |}.

Definition call (self : t) (read1 : Read) (read2 : option Read)
  : result (bool * t) :=
  let failures := 0 in
  b1 <- call_predicate (filter self) (Some read1) ;;
  let failures := if b1 then failures + 1 else failures in
  b2 <- (if min_affected self - failures =? 1 then
           match read2 with
           | None => Ok true
           | Some _ => call_predicate (filter self) read2
           end
         else Ok false) ;;
  let failures := if b2 then failures + 1 else failures in
  if min_affected self <=? failures then
    Ok (DISCARD, {| filtered := filtered self + 1; filter := filter self;
                    min_affected := min_affected self |})
  else Ok (KEEP, self).
End PairedWrapper.

(** What a factory returns: one of the two wrappers. *)
Inductive Wrapper : Type :=
| Single (w : SingleWrapper.t)
| Paired (w : PairedWrapper.t).

Definition Wrapper_filtered (w : Wrapper) : Z :=
  match w with
  | Single s => SingleWrapper.filtered s
  | Paired p => PairedWrapper.filtered p
  end.

(** [f(read1, read2)] on a wrapper of either class. *)
Definition Wrapper_call (w : Wrapper) (read1 : Read) (read2 : option Read)
  : result (bool * Wrapper) :=
  match w with
  | Single s => '(v, s') <- SingleWrapper.call s read1 read2 ;; Ok (v, Single s')
  | Paired p => '(v, p') <- PairedWrapper.call p read1 read2 ;; Ok (v, Paired p')
  end.

(** ** Filter classes and their construction *)

(** The classes of the module.  The chain uses a class as the identity of
    the filter built from it. *)
Inductive filter_type : Type :=
| MergedReadFilter
| TooShortReadFilter
| TooLongReadFilter
| NContentFilter
| UntrimmedFilter
| TrimmedFilter
| NoFilter.

Definition filter_type_eqb (a b : filter_type) : bool :=
  match a, b with
  | MergedReadFilter, MergedReadFilter
  | TooShortReadFilter, TooShortReadFilter
  | TooLongReadFilter, TooLongReadFilter
  | NContentFilter, NContentFilter
  | UntrimmedFilter, UntrimmedFilter
  | TrimmedFilter, TrimmedFilter
  | NoFilter, NoFilter => true
  | _, _ => false
  end.

(** A constructor call of [filter_type] on the arguments passed along: a
    class together with the arguments its [__init__] takes. *)
Inductive ctor_call : Type :=
| NewMergedReadFilter
| NewTooShortReadFilter (minimum_length : Z)
| NewTooLongReadFilter (maximum_length : Z)
| NewNContentFilter (count : float)
| NewUntrimmedFilter
| NewTrimmedFilter
| NewNoFilter.

Definition class_of (c : ctor_call) : filter_type :=
  match c with
  | NewMergedReadFilter => MergedReadFilter
  | NewTooShortReadFilter _ => TooShortReadFilter
  | NewTooLongReadFilter _ => TooLongReadFilter
  | NewNContentFilter _ => NContentFilter
  | NewUntrimmedFilter => UntrimmedFilter
  | NewTrimmedFilter => TrimmedFilter
  | NewNoFilter => NoFilter
  end.

(** Runs the constructor; the predicate is the [__call__] of the object. *)
Definition construct (c : ctor_call) : result Predicate :=
  match c with
  | NewMergedReadFilter => Ok MergedReadFilter.call
  | NewTooShortReadFilter n =>
      Ok (TooShortReadFilter.call (TooShortReadFilter.init n))
  | NewTooLongReadFilter n =>
      Ok (TooLongReadFilter.call (TooLongReadFilter.init n))
  | NewNContentFilter x =>
      f <- NContentFilter.init x ;; Ok (NContentFilter.verdict f)
  | NewUntrimmedFilter => Ok UntrimmedFilter.call
  | NewTrimmedFilter => Ok TrimmedFilter.call
  | NewNoFilter => Ok NoFilter.call
  end.

(** ** The factory *)

(** The values the pairing mode takes: a string, a bool or [None]. *)
Inductive pyval : Type :=
| PyNone
| PyBool (b : bool)
| PyStr (s : string).

(** [v == s] for a string literal [s]. *)
Definition py_eq_str (v : pyval) (s : string) : bool :=
  match v with
  | PyStr s' => String.eqb s' s
  | _ => false
  end.

Module FilterFactory.
Record t : Type := mk { paired : pyval; min_affected : Z }.

Definition init (paired : pyval) (min_affected : Z) : t :=
  {| paired := paired; min_affected := min_affected |}.

Definition call (self : t) (c : ctor_call) : result Wrapper :=
  f <- construct c ;;
  if py_eq_str (paired self) "both" then
    w <- PairedWrapper.init f (min_affected self) ;; Ok (Paired w)
  else Ok (Single (SingleWrapper.init f)).
End FilterFactory.

(** ** The chain *)

(** [OrderedDict]: the items in insertion order, no key twice. *)
Definition OrderedDict : Type := list (filter_type * Wrapper).

Definition keys (d : OrderedDict) : list filter_type := map fst d.

(** [d[k] = v]: a key already present keeps its place and takes the new
    value, a new key goes to the end. *)
Fixpoint setitem (d : OrderedDict) (k : filter_type) (v : Wrapper) : OrderedDict :=
  match d with
  | [] => [(k, v)]
  | (k', v') :: rest =>
      if filter_type_eqb k' k then (k, v) :: rest
      else (k', v') :: setitem rest k v
  end.

(** [d.get(k)] *)
Fixpoint getitem (d : OrderedDict) (k : filter_type) : option Wrapper :=
  match d with
  | [] => None
  | (k', v') :: rest => if filter_type_eqb k' k then Some v' else getitem rest k
  end.

Module Filters.
Record t : Type := mk { filters : OrderedDict; filter_factory : FilterFactory.t }.

Definition init (filter_factory : FilterFactory.t) : t :=
  {| filters := []; filter_factory := filter_factory |}.

Definition add_filter (self : t) (c : ctor_call) : result t :=
  w <- FilterFactory.call (filter_factory self) c ;;
  Ok {| filters := setitem (filters self) (class_of c) w;
        filter_factory := filter_factory self |}.

(** The loop of [filter] over [self.filters.items()]: the destination and
    the items after the calls made. *)
Fixpoint filter_loop (items : OrderedDict) (read1 : Read) (read2 : option Read)
  : result (filter_type * OrderedDict) :=
  match items with
  | [] => Ok (NoFilter, [])
  | (ft, f) :: rest =>
      '(v, f') <- Wrapper_call f read1 read2 ;;
      if v then Ok (ft, (ft, f') :: rest)
      else
        '(dest, rest') <- filter_loop rest read1 read2 ;;
        Ok (dest, (ft, f') :: rest')
  end.

Definition filter (self : t) (read1 : Read) (read2 : option Read)
  : result (filter_type * t) :=
  '(dest, items) <- filter_loop (filters self) read1 read2 ;;
  Ok (dest, {| filters := items; filter_factory := filter_factory self |}).

Definition contains (self : t) (ft : filter_type) : bool :=
  match getitem (filters self) ft with Some _ => true | None => false end.

(** A run of [add_filter] calls; the first exception ends it. *)
Fixpoint add_filters (self : t) (calls : list ctor_call) : result t :=
  match calls with
  | [] => Ok self
  | c :: rest => self' <- add_filter self c ;; add_filters self' rest
  end.
End Filters.

(** ** Spec-side definitions and sample inputs *)

(** The number of symbols of [s] that are ['N'] or ['n'], as the
    specification words the count. *)
Definition is_N (c : ascii) : bool := Ascii.eqb c "N" || Ascii.eqb c "n".

Fixpoint count_N (s : string) : Z :=
  match s with
  | EmptyString => 0
  | String c s' => (if is_N c then 1 else 0) + count_N s'
  end.

(** The identities of a key list with later repetitions removed: each one
    stands where it first occurs. *)
Fixpoint first_occurrences (l : list filter_type) : list filter_type :=
  match l with
  | [] => []
  | k :: rest =>
      k :: List.filter (fun k' => negb (filter_type_eqb k' k)) (first_occurrences rest)
  end.

(** A read with the given sequence, untrimmed and not merged. *)
Definition read_of (s : string) : Read :=
  {| sequence := s; read_length := String.length s;
     trim_match := None; merged := false |}.

Definition too_short_20 : Predicate :=
  TooShortReadFilter.call (TooShortReadFilter.init 20).

Definition read_15 : Read := read_of "ACGTACGTNACGTAC".
Definition read_25 : Read := read_of "ACNNTACNTACGNNCGTACGTANGT".

(** The second read as the paired wrapper counts it: an absent read takes
    the [read2 is None] branch of the disjunction. *)
Definition second_counts (f : Predicate) (read2 : option Read) : bool :=
  match read2 with
  | None => true
  | Some r => f r
  end.

(** The paired wrapper after a discard. *)
Definition bump (w : PairedWrapper.t) : PairedWrapper.t :=
  {| PairedWrapper.filtered := PairedWrapper.filtered w + 1;
     PairedWrapper.filter := PairedWrapper.filter w;
     PairedWrapper.min_affected := PairedWrapper.min_affected w |}.

(** The wrapper keeps the record and is left as it was. *)
Definition keeps (read1 : Read) (read2 : option Read) (item : filter_type * Wrapper) : Prop :=
  Wrapper_call (snd item) read1 read2 = Ok (KEEP, snd item).

(** [k in d], on the keys. *)
Definition mem (k : filter_type) (l : list filter_type) : bool :=
  existsb (fun k' => filter_type_eqb k' k) l.

(** The keys not yet in [seen]. *)
Definition fresh_of (seen : list filter_type) (l : list filter_type) : list filter_type :=
  List.filter (fun k => negb (mem k seen)) l.

(** Sample factories and chains: a single-end factory with the chain of
    the end-to-end scenarios, and a both-reads factory with the chain that
    the calls of [calls_example] leave. *)
Definition factory_single : FilterFactory.t := FilterFactory.init (PyBool false) 1.

Definition factory_both_1 : FilterFactory.t := FilterFactory.init (PyStr "both") 1.

Definition calls_example : list ctor_call :=
  [NewTooShortReadFilter 20; NewNContentFilter 0.2; NewTooShortReadFilter 10].

Definition chain_example : Filters.t :=
  Filters.mk
    [(TooShortReadFilter,
      Paired (PairedWrapper.mk 0 (TooShortReadFilter.call (TooShortReadFilter.init 10)) 1));
     (NContentFilter,
      Paired (PairedWrapper.mk 0 (NContentFilter.verdict (NContentFilter.mk true 0.2)) 1))]
    factory_both_1.

Definition chain_single : Filters.t :=
  Filters.mk
    [(TooShortReadFilter, Single (SingleWrapper.mk 0 too_short_20));
     (NContentFilter,
      Single (SingleWrapper.mk 0 (NContentFilter.verdict (NContentFilter.mk true 0.2))))]
    factory_single.

(** Ten symbols, three of them N. *)
Definition read_3N : Read := read_of "ACNTNCGTAN".

(** The verdict of the N-content predicate built with threshold [t], when
    the construction succeeds. *)
Definition ncontent_verdict (t : float) (read : Read) : result bool :=
  flt <- NContentFilter.init t ;; Ok (fst (NContentFilter.call flt read)).

(** The destination [filter] returns and the counter of [ft] afterwards. *)
Definition filter_then_count (self : Filters.t) (read1 : Read) (read2 : option Read)
  (ft : filter_type) : result (filter_type * option Z) :=
  '(dest, self') <- Filters.filter self read1 read2 ;;
  Ok (dest, option_map Wrapper_filtered (getitem (Filters.filters self') ft)).

(** ** Runs of records, counters and configurations *)

(** The verdict a wrapper returns on a record. *)
Definition discards (w : Wrapper) (read1 : Read) (read2 : option Read) : bool :=
  match Wrapper_call w read1 read2 with
  | Ok (v, _) => v
  | Raise _ => false
  end.

(** The wrapper after [self.filtered += 1]. *)
Definition Wrapper_bump (w : Wrapper) : Wrapper :=
  match w with
  | Single s =>
      Single (SingleWrapper.mk (SingleWrapper.filtered s + 1) (SingleWrapper.filter s))
  | Paired p => Paired (bump p)
  end.

(** The wrapper with its counter put back to zero: its class, its predicate
    and, for a paired wrapper, its threshold are what is left. *)
Definition reset (w : Wrapper) : Wrapper :=
  match w with
  | Single s => Single (SingleWrapper.mk 0 (SingleWrapper.filter s))
  | Paired p =>
      Paired (PairedWrapper.mk 0 (PairedWrapper.filter p) (PairedWrapper.min_affected p))
  end.

(** The items of a chain with every counter put back to zero. *)
Definition config (d : OrderedDict) : OrderedDict :=
  map (fun item => (fst item, reset (snd item))) d.

Definition is_single (w : Wrapper) : bool :=
  match w with
  | Single _ => true
  | Paired _ => false
  end.

(** [self.filters[ft].filtered], when [ft] is registered. *)
Definition counter_of (self : Filters.t) (ft : filter_type) : option Z :=
  option_map Wrapper_filtered (getitem (Filters.filters self) ft).

(** The sum of the counters of a chain. *)
Definition total_filtered (d : OrderedDict) : Z :=
  fold_right (fun item acc => Wrapper_filtered (snd item) + acc) 0 d.

(** One [filter] call per record, first to last, each on the chain the call
    before left: the destinations and the chain at the end. *)
Fixpoint filter_all (self : Filters.t) (records : list (Read * option Read))
  : result (list filter_type * Filters.t) :=
  match records with
  | [] => Ok ([], self)
  | (read1, read2) :: rest =>
      '(dest, self1) <- Filters.filter self read1 read2 ;;
      '(dests, self2) <- filter_all self1 rest ;;
      Ok (dest :: dests, self2)
  end.

(** How many of the destinations are [ft]. *)
Definition routed_to (ft : filter_type) (dests : list filter_type) : Z :=
  Z.of_nat (List.length (List.filter (filter_type_eqb ft) dests)).

(** How many of the destinations are the identity of a registered filter
    rather than [NoFilter]. *)
Definition routed_away (dests : list filter_type) : Z :=
  Z.of_nat (List.length (List.filter (fun d => negb (filter_type_eqb d NoFilter)) dests)).

(** The destination [filter] returns for a record on a chain. *)
Definition destination (self : Filters.t) (record : Read * option Read) : filter_type :=
  match Filters.filter self (fst record) (snd record) with
  | Ok (dest, _) => dest
  | Raise _ => NoFilter
  end.

Definition records_example : list (Read * option Read) :=
  [(read_15, None); (read_25, None); (read_of "ACGTACGTACGTACGTACGTACGT", None);
   (read_15, Some read_25)].

(** [chain_single] after it discarded one record as too short, and that
    chain after a new registration for [TooShortReadFilter]. *)
Definition chain_single_used : Filters.t :=
  Filters.mk
    [(TooShortReadFilter,
      Single (SingleWrapper.mk 1 too_short_20));
     (NContentFilter,
      Single (SingleWrapper.mk 0 (NContentFilter.verdict (NContentFilter.mk true 0.2))))]
    factory_single.

Definition chain_single_again : Filters.t :=
  Filters.mk
    [(TooShortReadFilter,
      Single (SingleWrapper.mk 0 (TooShortReadFilter.call (TooShortReadFilter.init 10))));
     (NContentFilter,
      Single (SingleWrapper.mk 0 (NContentFilter.verdict (NContentFilter.mk true 0.2))))]
    factory_single.

(** ** Auxiliary lemmas *)

Ltac run_call :=
  unfold PairedWrapper.call, SingleWrapper.call, call_predicate, bind; cbn.

Lemma SingleWrapper_call_eq (w : SingleWrapper.t) (read1 : Read) (read2 : option Read) :
  SingleWrapper.call w read1 read2 =
  Ok (if SingleWrapper.filter w read1
      then (DISCARD, {| SingleWrapper.filtered := SingleWrapper.filtered w + 1;
                        SingleWrapper.filter := SingleWrapper.filter w |})
      else (KEEP, w)).
Proof. run_call. now destruct (SingleWrapper.filter w read1). Qed.

Lemma PairedWrapper_call_1 (w : PairedWrapper.t) (read1 : Read) (read2 : option Read) :
  PairedWrapper.min_affected w = 1 ->
  PairedWrapper.call w read1 read2 =
  Ok (if PairedWrapper.filter w read1 || second_counts (PairedWrapper.filter w) read2
      then (DISCARD, bump w) else (KEEP, w)).
Proof.
  intros Hm. unfold bump. run_call. rewrite !Hm.
  destruct (PairedWrapper.filter w read1); cbn; [reflexivity|].
  destruct read2 as [r2|]; cbn; [|reflexivity].
  now destruct (PairedWrapper.filter w r2).
Qed.

Lemma PairedWrapper_call_2 (w : PairedWrapper.t) (read1 : Read) (read2 : option Read) :
  PairedWrapper.min_affected w = 2 ->
  PairedWrapper.call w read1 read2 =
  Ok (if PairedWrapper.filter w read1 && second_counts (PairedWrapper.filter w) read2
      then (DISCARD, bump w) else (KEEP, w)).
Proof.
  intros Hm. unfold bump. run_call. rewrite !Hm.
  destruct (PairedWrapper.filter w read1); cbn; [|reflexivity].
  destruct read2 as [r2|]; cbn; [|reflexivity].
  now destruct (PairedWrapper.filter w r2).
Qed.

(** No call of a paired wrapper raises, whatever threshold it holds: the
    predicate is never applied to an absent read. *)
Lemma PairedWrapper_call_total (w : PairedWrapper.t) (read1 : Read) (read2 : option Read) :
  exists v : bool,
    PairedWrapper.call w read1 read2 = Ok (v, if v then bump w else w).
Proof.
  run_call.
  destruct (PairedWrapper.filter w read1); cbn;
    match goal with |- context [if ?c =? 1 then _ else _] => destruct (c =? 1) end;
    cbn; try (destruct read2 as [r2|]; cbn; try destruct (PairedWrapper.filter w r2));
    cbn;
    match goal with |- context [if ?c then _ else _] => destruct c end;
    first [now exists true | now exists false].
Qed.

(** ** The wrappers: verdicts and counters *)

(** C6: a [SingleWrapper] decides from the first read alone.  Its verdict is
    the predicate's verdict on [read1]; the call gives the same result with
    any second read, present or absent; so a record whose first read does
    not match is kept, whatever the second read is. *)
Theorem single_wrapper_first_read_only
  (w : SingleWrapper.t) (read1 : Read) (read2 : option Read) :
  (exists w', SingleWrapper.call w read1 read2 = Ok (SingleWrapper.filter w read1, w'))
  /\ SingleWrapper.call w read1 read2 = SingleWrapper.call w read1 None
  /\ (SingleWrapper.filter w read1 = false ->
      SingleWrapper.call w read1 read2 = Ok (KEEP, w)).
Proof.
  rewrite !SingleWrapper_call_eq. repeat split.
  - destruct (SingleWrapper.filter w read1); eexists; reflexivity.
  - intros ->. reflexivity.
Qed.

Lemma single_wrapper_first_read_only_witness :
  SingleWrapper.call (SingleWrapper.init too_short_20) read_25 (Some read_15)
  = Ok (KEEP, SingleWrapper.init too_short_20).
Proof.
  apply (single_wrapper_first_read_only
           (SingleWrapper.init too_short_20) read_25 (Some read_15)).
  reflexivity.
Defined.

(** C7: for both wrappers and every record, the call returns a verdict and
    the counter [filtered] afterwards is the counter before plus one when
    the verdict is discard, and the counter before when it is keep. *)
Theorem counter_follows_verdict (read1 : Read) (read2 : option Read) :
  (forall s : SingleWrapper.t, exists (v : bool) (s' : SingleWrapper.t),
      SingleWrapper.call s read1 read2 = Ok (v, s') /\
      SingleWrapper.filtered s' = SingleWrapper.filtered s + (if v then 1 else 0))
  /\
  (forall p : PairedWrapper.t, exists (v : bool) (p' : PairedWrapper.t),
      PairedWrapper.call p read1 read2 = Ok (v, p') /\
      PairedWrapper.filtered p' = PairedWrapper.filtered p + (if v then 1 else 0)).
Proof.
  split.
  - intros s. rewrite SingleWrapper_call_eq.
    destruct (SingleWrapper.filter s read1); do 2 eexists; split;
      try reflexivity; cbn; lia.
  - intros p. destruct (PairedWrapper_call_total p read1 read2) as [v Hv].
    exists v, (if v then bump p else p). split; [exact Hv|].
    destruct v; cbn; lia.
Qed.

(** C3: with both reads present, a [PairedWrapper] holding a threshold of 1
    or 2 discards exactly when the number of reads the predicate matches
    reaches [min_affected]: either read for 1, both reads for 2. *)
Theorem paired_wrapper_both_present
  (w : PairedWrapper.t) (read1 read2 : Read)
  (Hm : PairedWrapper.min_affected w = 1 \/ PairedWrapper.min_affected w = 2) :
  let f := PairedWrapper.filter w in
  let matching := (if f read1 then 1 else 0) + (if f read2 then 1 else 0) in
  exists (v : bool) (w' : PairedWrapper.t),
    PairedWrapper.call w read1 (Some read2) = Ok (v, w') /\
    (v = DISCARD <-> PairedWrapper.min_affected w <= matching) /\
    (PairedWrapper.min_affected w = 1 -> v = f read1 || f read2) /\
    (PairedWrapper.min_affected w = 2 -> v = f read1 && f read2).
Proof.
  cbn zeta. destruct Hm as [Hm|Hm].
  - rewrite (PairedWrapper_call_1 w read1 (Some read2) Hm), Hm. cbn.
    destruct (PairedWrapper.filter w read1), (PairedWrapper.filter w read2);
      cbn; do 2 eexists; (split; [reflexivity|]); unfold DISCARD, KEEP;
      repeat split; intros; try reflexivity; try lia; try discriminate.
  - rewrite (PairedWrapper_call_2 w read1 (Some read2) Hm), Hm. cbn.
    destruct (PairedWrapper.filter w read1), (PairedWrapper.filter w read2);
      cbn; do 2 eexists; (split; [reflexivity|]); unfold DISCARD, KEEP;
      repeat split; intros; try reflexivity; try lia; try discriminate.
Qed.

Lemma paired_wrapper_both_present_witness :
  exists (v : bool) (w' : PairedWrapper.t),
    PairedWrapper.call (PairedWrapper.mk 0 too_short_20 2) read_15 (Some read_25)
    = Ok (v, w') /\
    (v = DISCARD <->
     2 <= (if too_short_20 read_15 then 1 else 0) + (if too_short_20 read_25 then 1 else 0)) /\
    (2 = 1 -> v = too_short_20 read_15 || too_short_20 read_25) /\
    (2 = 2 -> v = too_short_20 read_15 && too_short_20 read_25).
Proof.
  apply (paired_wrapper_both_present (PairedWrapper.mk 0 too_short_20 2) read_15 read_25).
  right. reflexivity.
Defined.

(** C1, as the code has it: an absent second read counts as a matching
    one.  With [min_affected = 1] the record is discarded whatever the
    first read is; with [min_affected = 2] it is discarded exactly when the
    predicate matches the first read. *)
Theorem paired_wrapper_absent_second
  (w : PairedWrapper.t) (read1 : Read)
  (Hm : PairedWrapper.min_affected w = 1 \/ PairedWrapper.min_affected w = 2) :
  exists (v : bool) (w' : PairedWrapper.t),
    PairedWrapper.call w read1 None = Ok (v, w') /\
    (PairedWrapper.min_affected w = 1 -> v = DISCARD) /\
    (PairedWrapper.min_affected w = 2 -> v = PairedWrapper.filter w read1).
Proof.
  destruct Hm as [Hm|Hm].
  - rewrite (PairedWrapper_call_1 w read1 None Hm), Hm. cbn.
    rewrite orb_true_r. do 2 eexists. split; [reflexivity|].
    split; intros; [reflexivity | discriminate].
  - rewrite (PairedWrapper_call_2 w read1 None Hm), Hm. cbn.
    rewrite andb_true_r.
    destruct (PairedWrapper.filter w read1); do 2 eexists;
      (split; [reflexivity|]); split; intros; try reflexivity; discriminate.
Qed.

Lemma paired_wrapper_absent_second_witness :
  exists (v : bool) (w' : PairedWrapper.t),
    PairedWrapper.call (PairedWrapper.mk 0 too_short_20 1) read_25 None = Ok (v, w') /\
    (1 = 1 -> v = DISCARD) /\
    (1 = 2 -> v = too_short_20 read_25).
Proof.
  apply (paired_wrapper_absent_second (PairedWrapper.mk 0 too_short_20 1) read_25).
  left. reflexivity.
Defined.

(** C1, as stated, fails.  A read of length 25 is not too short for a
    minimum of 20, yet with [min_affected = 1] and no second read the
    record is discarded; a read of length 15 is too short, and with
    [min_affected = 2] and no second read the record is discarded, not
    kept. *)
Lemma paired_wrapper_absent_second_counterexample :
  too_short_20 read_25 = false /\
  PairedWrapper.call (PairedWrapper.mk 0 too_short_20 1) read_25 None
  = Ok (DISCARD, PairedWrapper.mk 1 too_short_20 1) /\
  PairedWrapper.call (PairedWrapper.mk 0 too_short_20 2) read_15 None
  = Ok (DISCARD, PairedWrapper.mk 1 too_short_20 2).
Proof. repeat split. Qed.

(** C5: [PairedWrapper.__init__] raises [ValueError] for every
    [min_affected] other than 1 and 2 and returns a wrapper for 1 and for
    2; and no call of a wrapper raises, for any record. *)
Theorem paired_wrapper_init_validates (f : Predicate) (m : Z) :
  (m <> 1 /\ m <> 2 ->
   PairedWrapper.init f m = Raise (ValueError "min_affected must be 1 or 2"))
  /\
  (m = 1 \/ m = 2 ->
   PairedWrapper.init f m = Ok (PairedWrapper.mk 0 f m))
  /\
  (forall (w : PairedWrapper.t) (read1 : Read) (read2 : option Read),
      exists (v : bool) (w' : PairedWrapper.t),
        PairedWrapper.call w read1 read2 = Ok (v, w') /\
        PairedWrapper.min_affected w' = PairedWrapper.min_affected w).
Proof.
  unfold PairedWrapper.init. repeat split.
  - intros [H1 H2].
    destruct (Z.eqb_spec m 1); [contradiction|].
    destruct (Z.eqb_spec m 2); [contradiction|]. reflexivity.
  - intros [-> | ->]; reflexivity.
  - intros w read1 read2.
    destruct (PairedWrapper_call_total w read1 read2) as [v Hv].
    exists v, (if v then bump w else w). split; [exact Hv|].
    now destruct v.
Qed.

Lemma paired_wrapper_init_validates_witness :
  PairedWrapper.init too_short_20 3 = Raise (ValueError "min_affected must be 1 or 2")
  /\ PairedWrapper.init too_short_20 2 = Ok (PairedWrapper.mk 0 too_short_20 2).
Proof.
  split.
  - apply (paired_wrapper_init_validates too_short_20 3). split; discriminate.
  - apply (paired_wrapper_init_validates too_short_20 2). right. reflexivity.
Defined.

(** ** The factory *)

Lemma py_eq_str_true (v : pyval) (s : string) :
  py_eq_str v s = true <-> v = PyStr s.
Proof.
  destruct v as [|b|s']; cbn; split; try discriminate.
  - intros H. apply String.eqb_eq in H. now subst.
  - intros H. injection H as ->. apply String.eqb_refl.
Qed.

Lemma py_eq_str_false (v : pyval) (s : string) :
  py_eq_str v s = false <-> v <> PyStr s.
Proof.
  rewrite <- py_eq_str_true. now destruct (py_eq_str v s).
Qed.

(** C9: once the predicate [f] is constructed, the factory wraps it in a
    [PairedWrapper] holding the factory's [min_affected] when its pairing
    mode is the string ["both"], and in a [SingleWrapper] for every other
    pairing mode; a [PairedWrapper] comes out of no other mode. *)
Theorem factory_chooses_wrapper
  (self : FilterFactory.t) (c : ctor_call) (f : Predicate)
  (Hf : construct c = Ok f) :
  (FilterFactory.paired self = PyStr "both" ->
   FilterFactory.min_affected self = 1 \/ FilterFactory.min_affected self = 2 ->
   FilterFactory.call self c
   = Ok (Paired (PairedWrapper.mk 0 f (FilterFactory.min_affected self))))
  /\
  (FilterFactory.paired self <> PyStr "both" ->
   FilterFactory.call self c = Ok (Single (SingleWrapper.mk 0 f)))
  /\
  (forall p : PairedWrapper.t,
      FilterFactory.call self c = Ok (Paired p) ->
      FilterFactory.paired self = PyStr "both" /\
      p = PairedWrapper.mk 0 f (FilterFactory.min_affected self)).
Proof.
  unfold FilterFactory.call. rewrite Hf. cbn. repeat split.
  - intros Hp Hm. apply py_eq_str_true in Hp. rewrite Hp.
    unfold PairedWrapper.init. now destruct Hm as [-> | ->].
  - intros Hp. apply py_eq_str_false in Hp. now rewrite Hp.
  - destruct (py_eq_str (FilterFactory.paired self) "both") eqn:E;
      [now apply py_eq_str_true | discriminate].
  - destruct (py_eq_str (FilterFactory.paired self) "both"); [|discriminate].
    unfold PairedWrapper.init in H.
    destruct (negb _); cbn in H; [discriminate|]. congruence.
Qed.

Lemma factory_chooses_wrapper_witness :
  FilterFactory.call (FilterFactory.init (PyStr "both") 2) (NewTooShortReadFilter 20)
  = Ok (Paired (PairedWrapper.mk 0 too_short_20 2))
  /\
  FilterFactory.call (FilterFactory.init (PyStr "first") 2) (NewTooShortReadFilter 20)
  = Ok (Single (SingleWrapper.mk 0 too_short_20)).
Proof.
  split.
  - apply (factory_chooses_wrapper (FilterFactory.init (PyStr "both") 2)
             (NewTooShortReadFilter 20) too_short_20); try reflexivity.
    right. reflexivity.
  - apply (factory_chooses_wrapper (FilterFactory.init (PyStr "first") 2)
             (NewTooShortReadFilter 20) too_short_20); try reflexivity.
    cbn. discriminate.
Defined.

(** ** The chain: evaluation *)

Lemma Wrapper_call_total (w : Wrapper) (read1 : Read) (read2 : option Read) :
  exists (v : bool) (w' : Wrapper),
    Wrapper_call w read1 read2 = Ok (v, w') /\
    (v = KEEP -> w' = w) /\
    (v = DISCARD -> Wrapper_filtered w' = Wrapper_filtered w + 1).
Proof.
  destruct w as [s|p]; unfold Wrapper_call.
  - rewrite SingleWrapper_call_eq.
    destruct (SingleWrapper.filter s read1); cbn; do 2 eexists;
      (split; [reflexivity|]); split; intros; try reflexivity; discriminate.
  - destruct (PairedWrapper_call_total p read1 read2) as [v ->]. cbn.
    destruct v; do 2 eexists;
      (split; [reflexivity|]); split; intros; try reflexivity; discriminate.
Qed.

Lemma filter_loop_spec (items : OrderedDict) (read1 : Read) (read2 : option Read) :
  (exists pre ft w w' post,
      items = pre ++ (ft, w) :: post /\
      Forall (keeps read1 read2) pre /\
      Wrapper_call w read1 read2 = Ok (DISCARD, w') /\
      Wrapper_filtered w' = Wrapper_filtered w + 1 /\
      Filters.filter_loop items read1 read2 = Ok (ft, pre ++ (ft, w') :: post))
  \/
  (Forall (keeps read1 read2) items /\
   Filters.filter_loop items read1 read2 = Ok (NoFilter, items)).
Proof.
  induction items as [|[ft w] rest IH].
  - right. split; [constructor | reflexivity].
  - destruct (Wrapper_call_total w read1 read2) as (v & w' & Hcall & Hkeep & Hdisc).
    cbn [Filters.filter_loop]. rewrite Hcall. cbn [bind].
    destruct v.
    + left. exists [], ft, w, w', rest. cbn.
      repeat split; auto.
    + specialize (Hkeep eq_refl). subst w'.
      destruct IH as [(pre & ft' & w0 & w0' & post & -> & Hpre & Hc & Hf & Hloop)
                     | [Hall Hloop]].
      * left. exists ((ft, w) :: pre), ft', w0, w0', post. cbn.
        rewrite Hloop. cbn. repeat split; auto.
      * right. rewrite Hloop. cbn. split; [|reflexivity].
        constructor; [exact Hcall | exact Hall].
Qed.

(** C4: [Filters.filter] calls the wrappers in the order of the chain.
    Either some wrapper discards: every wrapper before the first such one
    keeps the record and is unchanged, the identity of that first one is
    returned, its counter is one more than before, and the items after it
    are not called; or every wrapper keeps the record: [NoFilter] is
    returned and the chain is unchanged. *)
Theorem filter_first_match_wins (self : Filters.t) (read1 : Read) (read2 : option Read) :
  (exists pre ft w w' post,
      Filters.filters self = pre ++ (ft, w) :: post /\
      Forall (keeps read1 read2) pre /\
      Wrapper_call w read1 read2 = Ok (DISCARD, w') /\
      Wrapper_filtered w' = Wrapper_filtered w + 1 /\
      Filters.filter self read1 read2
      = Ok (ft, Filters.mk (pre ++ (ft, w') :: post) (Filters.filter_factory self)))
  \/
  (Forall (keeps read1 read2) (Filters.filters self) /\
   Filters.filter self read1 read2 = Ok (NoFilter, self)).
Proof.
  destruct self as [items ff]. unfold Filters.filter. cbn.
  destruct (filter_loop_spec items read1 read2)
    as [(pre & ft & w & w' & post & -> & Hpre & Hc & Hf & Hloop) | [Hall Hloop]].
  - left. exists pre, ft, w, w', post. rewrite Hloop. cbn. repeat split; auto.
  - right. rewrite Hloop. cbn. split; [exact Hall | reflexivity].
Qed.

(** ** The chain: registration *)

Lemma filter_type_eqb_spec (a b : filter_type) : reflect (a = b) (filter_type_eqb a b).
Proof. destruct a, b; constructor; congruence. Qed.

Lemma filter_type_eqb_refl (a : filter_type) : filter_type_eqb a a = true.
Proof. now destruct a. Qed.

Lemma mem_In (k : filter_type) (l : list filter_type) : mem k l = true <-> In k l.
Proof.
  unfold mem. rewrite existsb_exists. split.
  - intros (x & Hx & E). destruct (filter_type_eqb_spec x k); [now subst | discriminate].
  - intros H. exists k. split; [exact H | apply filter_type_eqb_refl].
Qed.

Lemma keys_setitem (d : OrderedDict) (k : filter_type) (v : Wrapper) :
  keys (setitem d k v) = if mem k (keys d) then keys d else keys d ++ [k].
Proof.
  unfold keys, mem.
  induction d as [|[k' v'] rest IH]; cbn; [reflexivity|].
  destruct (filter_type_eqb_spec k' k) as [->|Hne]; cbn; [reflexivity|].
  rewrite IH. now destruct (existsb _ (map fst rest)).
Qed.

Lemma setitem_new (d : OrderedDict) (k : filter_type) (v : Wrapper) :
  mem k (keys d) = false -> setitem d k v = d ++ [(k, v)].
Proof.
  induction d as [|[k' v'] rest IH]; cbn; [reflexivity|].
  destruct (filter_type_eqb k' k); cbn; [discriminate|].
  intros H. now rewrite (IH H).
Qed.

Lemma setitem_replace (pre post : OrderedDict) (k : filter_type) (old v : Wrapper) :
  mem k (keys pre) = false ->
  setitem (pre ++ (k, old) :: post) k v = pre ++ (k, v) :: post.
Proof.
  induction pre as [|[k' v'] rest IH]; cbn.
  - now rewrite filter_type_eqb_refl.
  - destruct (filter_type_eqb k' k); cbn; [discriminate|].
    intros H. now rewrite (IH H).
Qed.

Lemma getitem_setitem_same (d : OrderedDict) (k : filter_type) (v : Wrapper) :
  getitem (setitem d k v) k = Some v.
Proof.
  induction d as [|[k' v'] rest IH]; cbn.
  - now rewrite filter_type_eqb_refl.
  - destruct (filter_type_eqb k' k) eqn:E; cbn.
    + now rewrite filter_type_eqb_refl.
    + now rewrite E.
Qed.

Lemma getitem_setitem_other (d : OrderedDict) (k k0 : filter_type) (v : Wrapper) :
  k0 <> k -> getitem (setitem d k v) k0 = getitem d k0.
Proof.
  intros Hne. induction d as [|[k' v'] rest IH]; cbn.
  - destruct (filter_type_eqb_spec k k0); [congruence | reflexivity].
  - destruct (filter_type_eqb_spec k' k) as [->|Hk]; cbn.
    + destruct (filter_type_eqb_spec k k0); [congruence | reflexivity].
    + now rewrite IH.
Qed.

Lemma filter_filter {A : Type} (p q : A -> bool) (l : list A) :
  List.filter p (List.filter q l) = List.filter (fun x => q x && p x) l.
Proof.
  induction l as [|a l IH]; cbn; [reflexivity|].
  destruct (q a); cbn; [destruct (p a)|]; now rewrite IH.
Qed.

Lemma mem_app_one (k x : filter_type) (seen : list filter_type) :
  mem x (seen ++ [k]) = mem x seen || filter_type_eqb k x.
Proof. unfold mem. rewrite existsb_app. cbn. now rewrite orb_false_r. Qed.

Lemma filter_type_eqb_sym (a b : filter_type) :
  filter_type_eqb a b = filter_type_eqb b a.
Proof. now destruct a, b. Qed.

Lemma fresh_of_seen (seen : list filter_type) (k : filter_type) (l : list filter_type) :
  mem k seen = true ->
  fresh_of seen (first_occurrences (k :: l)) = fresh_of seen (first_occurrences l).
Proof.
  intros Hk. unfold fresh_of. cbn. rewrite Hk. cbn.
  rewrite filter_filter. apply filter_ext. intros x.
  destruct (filter_type_eqb_spec x k) as [->|Hne]; cbn; [now rewrite Hk | reflexivity].
Qed.

Lemma fresh_of_new (seen : list filter_type) (k : filter_type) (l : list filter_type) :
  mem k seen = false ->
  fresh_of seen (first_occurrences (k :: l))
  = k :: fresh_of (seen ++ [k]) (first_occurrences l).
Proof.
  intros Hk. unfold fresh_of. cbn. rewrite Hk. cbn. f_equal.
  rewrite filter_filter. apply filter_ext. intros x.
  rewrite mem_app_one, (filter_type_eqb_sym k x).
  destruct (filter_type_eqb x k), (mem x seen); reflexivity.
Qed.

Lemma fresh_of_nil (l : list filter_type) : fresh_of [] l = l.
Proof.
  induction l as [|a l IH]; [reflexivity|].
  unfold fresh_of in *. cbn. now f_equal.
Qed.

Lemma add_filter_inv (self self' : Filters.t) (c : ctor_call) :
  Filters.add_filter self c = Ok self' ->
  exists w,
    FilterFactory.call (Filters.filter_factory self) c = Ok w /\
    self' = Filters.mk (setitem (Filters.filters self) (class_of c) w)
                       (Filters.filter_factory self).
Proof.
  unfold Filters.add_filter.
  destruct (FilterFactory.call (Filters.filter_factory self) c) as [w|e]; cbn;
    [|discriminate].
  intros H. injection H as <-. now exists w.
Qed.

Lemma add_filters_keys (calls : list ctor_call) (self self' : Filters.t) :
  Filters.add_filters self calls = Ok self' ->
  Filters.filter_factory self' = Filters.filter_factory self /\
  keys (Filters.filters self')
  = keys (Filters.filters self)
    ++ fresh_of (keys (Filters.filters self)) (first_occurrences (map class_of calls)).
Proof.
  revert self. induction calls as [|c rest IH]; intros self H;
    cbn [Filters.add_filters] in H.
  - injection H as <-. split; [reflexivity|].
    unfold fresh_of. cbn. now rewrite app_nil_r.
  - destruct (Filters.add_filter self c) as [s1|e] eqn:E; cbn [bind] in H;
      [|discriminate].
    destruct (IH _ H) as [Hff Hkeys].
    destruct (add_filter_inv _ _ _ E) as (w & _ & ->).
    cbn [Filters.filters Filters.filter_factory] in *.
    split; [exact Hff|]. rewrite Hkeys, keys_setitem.
    change (map class_of (c :: rest)) with (class_of c :: map class_of rest).
    destruct (mem (class_of c) (keys (Filters.filters self))) eqn:Hm.
    + now rewrite fresh_of_seen.
    + rewrite fresh_of_new by exact Hm. now rewrite <- app_assoc.
Qed.

Lemma factory_counter_zero (ff : FilterFactory.t) (c : ctor_call) (w : Wrapper) :
  FilterFactory.call ff c = Ok w -> Wrapper_filtered w = 0.
Proof.
  unfold FilterFactory.call. destruct (construct c) as [f|e]; cbn; [|discriminate].
  destruct (py_eq_str (FilterFactory.paired ff) "both").
  - unfold PairedWrapper.init. destruct (negb _); cbn; [discriminate|].
    intros H. injection H as <-. reflexivity.
  - intros H. injection H as <-. reflexivity.
Qed.

Lemma first_occurrences_NoDup (l : list filter_type) : NoDup (first_occurrences l).
Proof.
  induction l as [|k l IH]; cbn; constructor.
  - rewrite filter_In. intros [_ H]. now rewrite filter_type_eqb_refl in H.
  - now apply NoDup_filter.
Qed.

Lemma in_keys_setitem (d : OrderedDict) (k x : filter_type) (v : Wrapper) :
  In x (keys (setitem d k v)) -> x = k \/ In x (keys d).
Proof.
  rewrite keys_setitem. destruct (mem k (keys d)); [now right|].
  intros H. apply in_app_or in H. destruct H as [H|[H|[]]]; [now right | now left].
Qed.

Lemma setitem_NoDup (d : OrderedDict) (k : filter_type) (v : Wrapper) :
  NoDup (keys d) -> NoDup (keys (setitem d k v)).
Proof.
  induction d as [|[k' v'] rest IH]; intros Hnd.
  - cbn. constructor; [intros [] | constructor].
  - change (keys ((k', v') :: rest)) with (k' :: keys rest) in Hnd.
    apply NoDup_cons_iff in Hnd. destruct Hnd as [Hnotin Hnd].
    cbn [setitem]. destruct (filter_type_eqb_spec k' k) as [->|Hne].
    + change (keys ((k, v) :: rest)) with (k :: keys rest). now constructor.
    + change (keys ((k', v') :: setitem rest k v))
        with (k' :: keys (setitem rest k v)).
      constructor; [|now apply IH].
      intros Hin. apply in_keys_setitem in Hin. destruct Hin; congruence.
Qed.

Lemma add_filters_NoDup (calls : list ctor_call) (start self : Filters.t) :
  NoDup (keys (Filters.filters start)) ->
  Filters.add_filters start calls = Ok self ->
  NoDup (keys (Filters.filters self)).
Proof.
  revert start. induction calls as [|c rest IH]; intros start Hnd Hrun;
    cbn [Filters.add_filters] in Hrun.
  - now injection Hrun as <-.
  - destruct (Filters.add_filter start c) as [s1|e] eqn:E; cbn [bind] in Hrun;
      [|discriminate].
    destruct (add_filter_inv _ _ _ E) as (w & _ & ->).
    apply (IH (Filters.mk (setitem (Filters.filters start) (class_of c) w)
                          (Filters.filter_factory start)));
      [exact (setitem_NoDup _ (class_of c) w Hnd) | exact Hrun].
Qed.

Lemma In_class_dec (k : filter_type) (l : list filter_type) : {In k l} + {~ In k l}.
Proof.
  apply in_dec. intros a b. destruct (filter_type_eqb_spec a b); [now left | now right].
Qed.

(** What a run of [add_filter] calls leaves under each key: for a class
    among the calls, the wrapper the factory built for one of them; for
    any other key, what was there before. *)
Lemma add_filters_lookup (calls : list ctor_call) (start self : Filters.t) :
  Filters.add_filters start calls = Ok self ->
  forall k : filter_type,
    (In k (map class_of calls) ->
     exists (c : ctor_call) (w : Wrapper),
       In c calls /\ class_of c = k /\
       FilterFactory.call (Filters.filter_factory start) c = Ok w /\
       getitem (Filters.filters self) k = Some w)
    /\
    (~ In k (map class_of calls) ->
     getitem (Filters.filters self) k = getitem (Filters.filters start) k).
Proof.
  revert start. induction calls as [|c rest IH]; intros start Hrun k;
    cbn [Filters.add_filters] in Hrun.
  - injection Hrun as <-. split; [intros [] | reflexivity].
  - destruct (Filters.add_filter start c) as [s1|e] eqn:E; cbn [bind] in Hrun;
      [|discriminate].
    destruct (add_filter_inv _ _ _ E) as (w & Hw & ->).
    destruct (IH _ Hrun k) as [Hin Hout]. cbn [Filters.filters Filters.filter_factory] in *.
    change (map class_of (c :: rest)) with (class_of c :: map class_of rest).
    destruct (In_class_dec k (map class_of rest)) as [Hk|Hk].
    + split; [|intros Hn; exfalso; apply Hn; now right].
      intros _. destruct (Hin Hk) as (c0 & w0 & Hc0 & Hcl & Hcall & Hget).
      exists c0, w0. repeat split; auto. now right.
    + rewrite (Hout Hk). split.
      * intros [Heq|Hr]; [|contradiction]. subst k.
        exists c, w. rewrite getitem_setitem_same. repeat split; auto. now left.
      * intros Hn. apply getitem_setitem_other. intros ->. apply Hn. now left.
Qed.

(** C8: the chain may be any one with distinct keys, whatever its counters
    are (a new chain, or one that has evaluated records).  After a run of
    [add_filter] calls on it the keys are the former keys in their former
    order, followed by the identities not registered before, each at the
    place of its first registration; on a new chain this is the order of
    first registration.  Every identity among the calls holds a wrapper
    fresh from the factory, with a counter of zero whatever counter the
    identity had before, and every other identity holds what it held.  One
    more call does the same: it stores a fresh wrapper with a counter of
    zero, at the end for an identity not yet present, in the place of the
    old wrapper for an identity already present. *)
Theorem add_filter_keeps_first_insertion_order
  (start : Filters.t) (calls : list ctor_call) (self : Filters.t)
  (Hnd : NoDup (keys (Filters.filters start)))
  (Hrun : Filters.add_filters start calls = Ok self) :
  keys (Filters.filters self)
  = keys (Filters.filters start)
    ++ fresh_of (keys (Filters.filters start)) (first_occurrences (map class_of calls))
  /\
  (Filters.filters start = [] ->
   keys (Filters.filters self) = first_occurrences (map class_of calls))
  /\
  (forall k : filter_type,
      In k (map class_of calls) ->
      exists (c : ctor_call) (w : Wrapper),
        In c calls /\ class_of c = k /\
        FilterFactory.call (Filters.filter_factory start) c = Ok w /\
        getitem (Filters.filters self) k = Some w /\
        counter_of self k = Some 0)
  /\
  (forall k : filter_type,
      ~ In k (map class_of calls) ->
      getitem (Filters.filters self) k = getitem (Filters.filters start) k)
  /\
  forall (c : ctor_call) (self' : Filters.t),
    Filters.add_filter self c = Ok self' ->
    exists w : Wrapper,
      FilterFactory.call (Filters.filter_factory start) c = Ok w /\
      Wrapper_filtered w = 0 /\
      getitem (Filters.filters self') (class_of c) = Some w /\
      counter_of self' (class_of c) = Some 0 /\
      (forall k : filter_type, k <> class_of c ->
         getitem (Filters.filters self') k = getitem (Filters.filters self) k) /\
      (mem (class_of c) (keys (Filters.filters self)) = false ->
       Filters.filters self' = Filters.filters self ++ [(class_of c, w)]) /\
      (forall (pre : OrderedDict) (old : Wrapper) (post : OrderedDict),
          Filters.filters self = pre ++ (class_of c, old) :: post ->
          Filters.filters self' = pre ++ (class_of c, w) :: post).
Proof.
  destruct (add_filters_keys _ _ _ Hrun) as [Hff Hkeys].
  pose proof (add_filters_NoDup _ _ _ Hnd Hrun) as Hnd'.
  split; [exact Hkeys|].
  split; [intros Hempty; rewrite Hkeys, Hempty; apply fresh_of_nil|].
  split.
  { intros k Hk.
    destruct (proj1 (add_filters_lookup _ _ _ Hrun k) Hk)
      as (c & w & Hc & Hcl & Hcall & Hget).
    exists c, w. repeat split; auto.
    unfold counter_of. rewrite Hget. cbn.
    now rewrite (factory_counter_zero _ _ _ Hcall). }
  split; [intros k Hk; exact (proj2 (add_filters_lookup _ _ _ Hrun k) Hk)|].
  intros c self' Hadd.
  destruct (add_filter_inv _ _ _ Hadd) as (w & Hw & ->). rewrite Hff in Hw.
  exists w. unfold counter_of. cbn [Filters.filters].
  split; [exact Hw|].
  split; [exact (factory_counter_zero _ _ _ Hw)|].
  split; [apply getitem_setitem_same|].
  split; [rewrite getitem_setitem_same; cbn;
          now rewrite (factory_counter_zero _ _ _ Hw)|].
  split; [intros k Hne; now apply getitem_setitem_other|].
  split; [apply setitem_new|].
  intros pre old post Hsplit. rewrite Hsplit. apply setitem_replace.
  rewrite Hsplit in Hnd'. unfold keys in Hnd'.
  rewrite map_app in Hnd'. cbn in Hnd'. apply NoDup_remove_2 in Hnd'.
  destruct (mem (class_of c) (keys pre)) eqn:Hm; [|reflexivity].
  exfalso. apply Hnd', in_or_app. left. now apply mem_In.
Qed.

(** The chain [chain_single] after one discard by its first filter, and
    that chain after [TooShortReadFilter] is registered again. *)
Example chain_single_used_by_filter :
  Filters.filter chain_single read_15 None = Ok (TooShortReadFilter, chain_single_used)
  /\ counter_of chain_single_used TooShortReadFilter = Some 1
  /\ Filters.add_filters chain_single_used [NewTooShortReadFilter 10]
     = Ok chain_single_again.
Proof. repeat split. Qed.

Lemma add_filter_keeps_first_insertion_order_witness :
  counter_of chain_single_used TooShortReadFilter = Some 1
  /\
  keys (Filters.filters chain_single_again)
  = keys (Filters.filters chain_single_used)
    ++ fresh_of (keys (Filters.filters chain_single_used))
         (first_occurrences (map class_of [NewTooShortReadFilter 10]))
  /\
  exists (c : ctor_call) (w : Wrapper),
    In c [NewTooShortReadFilter 10] /\ class_of c = TooShortReadFilter /\
    FilterFactory.call (Filters.filter_factory chain_single_used) c = Ok w /\
    getitem (Filters.filters chain_single_again) TooShortReadFilter = Some w /\
    counter_of chain_single_again TooShortReadFilter = Some 0.
Proof.
  assert (Hnd : NoDup (keys (Filters.filters chain_single_used)))
    by (repeat constructor; cbn; intuition discriminate).
  assert (Hrun : Filters.add_filters chain_single_used [NewTooShortReadFilter 10]
                 = Ok chain_single_again) by reflexivity.
  split; [reflexivity|]. split.
  - exact (proj1 (add_filter_keeps_first_insertion_order
                    chain_single_used [NewTooShortReadFilter 10] chain_single_again
                    Hnd Hrun)).
  - apply (add_filter_keeps_first_insertion_order
             chain_single_used [NewTooShortReadFilter 10] chain_single_again Hnd Hrun).
    cbn. now left.
Defined.

(** ** The N-content predicate *)

Lemma lower_char_n (c : ascii) : Ascii.eqb (lower_char c) "n" = is_N c.
Proof. destruct c as [[] [] [] [] [] [] [] []]; reflexivity. Qed.

Lemma count_lower_n (s : string) : count "n" (lower s) = count_N s.
Proof.
  induction s as [|c s IH]; cbn; [reflexivity|].
  now rewrite lower_char_n, IH.
Qed.

Lemma SFcompare_antisym (x y : spec_float) :
  SFcompare y x = option_map CompOpp (SFcompare x y).
Proof.
  destruct x as [sx|sx| |sx mx ex], y as [sy|sy| |sy my ey]; simpl;
    try destruct sx; try destruct sy; simpl; try reflexivity.
  - rewrite (Z.compare_antisym ey ex).
    destruct (ey ?= ex); simpl; try reflexivity.
    rewrite CompOpp_involutive. f_equal.
    exact (Pos.compare_cont_antisym my mx Eq).
  - rewrite (Z.compare_antisym ey ex).
    destruct (ey ?= ex); simpl; try reflexivity.
    f_equal. symmetry. exact (Pos.compare_cont_antisym mx my Eq).
Qed.

(** [x <= y] excludes [y < x]. *)
Lemma float_leb_not_gt (x y : float) :
  PrimFloat.leb x y = true -> PrimFloat.ltb y x = false.
Proof.
  rewrite FloatAxioms.leb_spec, FloatAxioms.ltb_spec. unfold SFleb, SFltb.
  rewrite (SFcompare_antisym (Prim2SF x) (Prim2SF y)).
  destruct (SFcompare (Prim2SF x) (Prim2SF y)) as [[]|]; simpl; congruence.
Qed.

(** [x < y] excludes [y <= x]. *)
Lemma float_ltb_not_ge (x y : float) :
  PrimFloat.ltb x y = true -> PrimFloat.leb y x = false.
Proof.
  intros H. destruct (PrimFloat.leb y x) eqn:E; [|reflexivity].
  apply float_leb_not_gt in E. congruence.
Qed.

Lemma float_ltb_irrefl (x : float) : PrimFloat.ltb x x = false.
Proof.
  destruct (PrimFloat.ltb x x) eqn:E; [|reflexivity].
  pose proof (float_ltb_not_ge _ _ E) as H.
  rewrite FloatAxioms.leb_spec in H. rewrite FloatAxioms.ltb_spec in E.
  unfold SFleb, SFltb in *.
  destruct (SFcompare (Prim2SF x) (Prim2SF x)) as [[]|]; congruence.
Qed.

(** [1.0 <= t] gives [0 <= t]. *)
Lemma float_one_le_nonneg (t : float) :
  PrimFloat.leb 1 t = true -> PrimFloat.leb 0 t = true.
Proof.
  rewrite !FloatAxioms.leb_spec.
  change (Prim2SF 1) with (S754_finite false 4503599627370496 (-52)).
  change (Prim2SF 0) with (S754_zero false).
  destruct (Prim2SF t) as [s|s| |s m e]; try destruct s; cbn;
    try congruence; intros; reflexivity.
Qed.

Lemma NContentFilter_after_calls (flt : NContentFilter.t) (reads : list Read) :
  NContentFilter.after_calls flt reads = flt.
Proof. induction reads as [|r reads IH]; cbn; [reflexivity | exact IH]. Qed.

(** C2: the predicate counts the symbols ['N'] and ['n'] of the sequence.
    Built with a threshold [0 <= t < 1.0] it is in proportion mode: a read
    of length zero is kept, any other read is discarded exactly when
    [n_count / len(read) > t].  Built with a threshold [t >= 1.0], the
    value 1.0 included, it is in count mode: the read is discarded exactly
    when [n_count > t], so a read whose count equals [t] is kept. *)
Theorem ncontent_proportion_or_count (t : float) (read : Read) :
  NContentFilter.n_count read = count_N (sequence read)
  /\
  (PrimFloat.leb 0 t = true -> PrimFloat.ltb t 1 = true ->
   exists flt : NContentFilter.t,
     NContentFilter.init t = Ok flt /\
     fst (NContentFilter.call flt read)
     = if len read =? 0 then KEEP
       else PrimFloat.ltb t (truediv (count_N (sequence read)) (len read)))
  /\
  (PrimFloat.leb 1 t = true ->
   exists flt : NContentFilter.t,
     NContentFilter.init t = Ok flt /\
     fst (NContentFilter.call flt read)
     = PrimFloat.ltb t (float_of_int (count_N (sequence read))) /\
     (float_of_int (count_N (sequence read)) = t ->
      fst (NContentFilter.call flt read) = KEEP)).
Proof.
  assert (Hn : NContentFilter.n_count read = count_N (sequence read))
    by apply count_lower_n.
  split; [exact Hn|]. split.
  - intros H0 H1. unfold NContentFilter.init. rewrite H0, H1.
    eexists. split; [reflexivity|]. cbn. unfold NContentFilter.verdict. cbn.
    now rewrite Hn.
  - intros H1. unfold NContentFilter.init.
    rewrite (float_one_le_nonneg _ H1), (float_leb_not_gt _ _ H1).
    eexists. split; [reflexivity|]. cbn. unfold NContentFilter.verdict. cbn.
    rewrite Hn. split; [reflexivity|].
    intros ->. apply float_ltb_irrefl.
Qed.

Lemma ncontent_proportion_or_count_witness :
  (exists flt : NContentFilter.t,
     NContentFilter.init 0.2 = Ok flt /\
     fst (NContentFilter.call flt read_25)
     = if len read_25 =? 0 then KEEP
       else PrimFloat.ltb 0.2 (truediv (count_N (sequence read_25)) (len read_25)))
  /\
  (exists flt : NContentFilter.t,
     NContentFilter.init 1 = Ok flt /\
     fst (NContentFilter.call flt read_15)
     = PrimFloat.ltb 1 (float_of_int (count_N (sequence read_15))) /\
     (float_of_int (count_N (sequence read_15)) = 1%float ->
      fst (NContentFilter.call flt read_15) = KEEP)).
Proof.
  split.
  - apply (ncontent_proportion_or_count 0.2 read_25); reflexivity.
  - apply (ncontent_proportion_or_count 1 read_15); reflexivity.
Defined.

(** C10: [NContentFilter.__init__] raises [AssertionError] for a negative
    threshold and returns a predicate for every threshold [t >= 0]; the
    mode it stores is [t < 1.0], and no run of calls changes the mode or
    the cutoff. *)
Theorem ncontent_init_validates (t : float) :
  (PrimFloat.ltb t 0 = true -> NContentFilter.init t = Raise AssertionError)
  /\
  (PrimFloat.leb 0 t = true ->
   exists flt : NContentFilter.t,
     NContentFilter.init t = Ok flt /\
     NContentFilter.is_proportion flt = PrimFloat.ltb t 1 /\
     NContentFilter.cutoff flt = t /\
     forall reads : list Read,
       NContentFilter.is_proportion (NContentFilter.after_calls flt reads)
       = PrimFloat.ltb t 1 /\
       NContentFilter.cutoff (NContentFilter.after_calls flt reads) = t).
Proof.
  unfold NContentFilter.init. split.
  - intros H. now rewrite (float_ltb_not_ge _ _ H).
  - intros H. rewrite H. eexists. split; [reflexivity|]. cbn.
    repeat split; now rewrite NContentFilter_after_calls.
Qed.

Lemma ncontent_init_validates_witness :
  NContentFilter.init (-0.5) = Raise AssertionError
  /\
  exists flt : NContentFilter.t,
    NContentFilter.init 0.2 = Ok flt /\
    NContentFilter.is_proportion flt = PrimFloat.ltb 0.2 1 /\
    NContentFilter.cutoff flt = 0.2%float /\
    forall reads : list Read,
      NContentFilter.is_proportion (NContentFilter.after_calls flt reads)
      = PrimFloat.ltb 0.2 1 /\
      NContentFilter.cutoff (NContentFilter.after_calls flt reads) = 0.2%float.
Proof.
  split.
  - apply (ncontent_init_validates (-0.5)). reflexivity.
  - apply (ncontent_init_validates 0.2). reflexivity.
Defined.

(** ** The scenarios of the specification, run on the model *)

Example ncontent_proportion_boundary :
  ncontent_verdict 0.3 read_3N = Ok KEEP /\
  ncontent_verdict 0.29 read_3N = Ok DISCARD /\
  ncontent_verdict 0.3 (read_of "") = Ok KEEP.
Proof. repeat split; reflexivity. Qed.

Example ncontent_count_boundary :
  ncontent_verdict 1 (read_of "ACGTN") = Ok KEEP /\
  ncontent_verdict 1 (read_of "ANGTn") = Ok DISCARD /\
  ncontent_verdict 3 read_3N = Ok KEEP /\
  ncontent_verdict 2 read_3N = Ok DISCARD.
Proof. repeat split; reflexivity. Qed.

Example chain_single_registered :
  Filters.add_filters (Filters.init factory_single)
    [NewTooShortReadFilter 20; NewNContentFilter 0.2] = Ok chain_single.
Proof. reflexivity. Qed.

Example chain_too_short_first :
  filter_then_count chain_single read_15 None TooShortReadFilter
  = Ok (TooShortReadFilter, Some 1) /\
  filter_then_count chain_single read_15 None NContentFilter
  = Ok (TooShortReadFilter, Some 0).
Proof. split; reflexivity. Qed.

Example chain_ncontent_second :
  filter_then_count chain_single read_25 None NContentFilter
  = Ok (NContentFilter, Some 1) /\
  filter_then_count chain_single read_25 None TooShortReadFilter
  = Ok (NContentFilter, Some 0).
Proof. split; reflexivity. Qed.

Example chain_nothing_matches :
  Filters.filter chain_single (read_of "ACGTACGTACGTACGTACGTACGT") None
  = Ok (NoFilter, chain_single).
Proof. reflexivity. Qed.

(** ** Further properties of the wrappers *)

Ltac case_tests :=
  repeat match goal with
         | |- context [?a =? ?b] => destruct (Z.eqb_spec a b); cbn
         | |- context [?a <=? ?b] => destruct (Z.leb_spec a b); cbn
         end.

(** The verdict of a wrapper call is [discards], and the wrapper afterwards
    is the bumped one on a discard and the same one on a keep. *)
Lemma Wrapper_call_eq (w : Wrapper) (read1 : Read) (read2 : option Read) :
  Wrapper_call w read1 read2
  = Ok (discards w read1 read2,
        if discards w read1 read2 then Wrapper_bump w else w).
Proof.
  unfold discards. destruct w as [s|p]; unfold Wrapper_call.
  - rewrite SingleWrapper_call_eq.
    now destruct (SingleWrapper.filter s read1).
  - destruct (PairedWrapper_call_total p read1 read2) as [v ->].
    now destruct v.
Qed.

(** X1: swapping the two reads of a complete pair changes nothing in what a
    paired wrapper returns, verdict and counter alike, whatever threshold
    the wrapper holds. *)
Theorem paired_wrapper_swap (w : PairedWrapper.t) (read1 read2 : Read) :
  PairedWrapper.call w read1 (Some read2) = PairedWrapper.call w read2 (Some read1).
Proof.
  run_call.
  destruct (PairedWrapper.filter w read1) eqn:E1,
           (PairedWrapper.filter w read2) eqn:E2; cbn;
    case_tests; rewrite ?E1, ?E2; cbn; case_tests; try reflexivity; lia.
Qed.

(** X2: on one predicate and one record, a paired wrapper with threshold 2
    discards only if the single wrapper does, and the single wrapper
    discards only if a paired wrapper with threshold 1 does; when the second
    read is absent the paired wrapper with threshold 2 and the single
    wrapper give the same verdict. *)
Theorem wrappers_ordered_by_strictness
  (f : Predicate) (n n1 n2 : Z) (read1 : Read) (read2 : option Read) :
  (discards (Paired (PairedWrapper.mk n2 f 2)) read1 read2 = DISCARD ->
   discards (Single (SingleWrapper.mk n f)) read1 read2 = DISCARD)
  /\
  (discards (Single (SingleWrapper.mk n f)) read1 read2 = DISCARD ->
   discards (Paired (PairedWrapper.mk n1 f 1)) read1 read2 = DISCARD)
  /\
  discards (Paired (PairedWrapper.mk n2 f 2)) read1 None
  = discards (Single (SingleWrapper.mk n f)) read1 None.
Proof.
  unfold discards, Wrapper_call.
  rewrite !SingleWrapper_call_eq.
  rewrite (PairedWrapper_call_2 (PairedWrapper.mk n2 f 2) read1 read2 eq_refl).
  rewrite (PairedWrapper_call_2 (PairedWrapper.mk n2 f 2) read1 None eq_refl).
  rewrite (PairedWrapper_call_1 (PairedWrapper.mk n1 f 1) read1 read2 eq_refl).
  cbn. destruct (f read1); cbn; repeat split; try discriminate;
    destruct (second_counts f read2); cbn; intros; congruence.
Qed.

Lemma wrappers_ordered_by_strictness_witness :
  discards (Single (SingleWrapper.mk 0 too_short_20)) read_15 (Some read_25) = DISCARD
  /\ discards (Paired (PairedWrapper.mk 0 too_short_20 1)) read_15 (Some read_25) = DISCARD.
Proof.
  assert (H : discards (Single (SingleWrapper.mk 0 too_short_20)) read_15 (Some read_25)
              = DISCARD) by reflexivity.
  split; [exact H|].
  exact (proj1 (proj2 (wrappers_ordered_by_strictness
                         too_short_20 0 0 0 read_15 (Some read_25))) H).
Defined.

(** X3: a paired wrapper does not look at the second read once the first
    decides.  With threshold 1 and a matching first read the record is
    discarded, with threshold 2 and a first read that does not match it is
    kept, the same for every second read, present or absent. *)
Theorem paired_wrapper_short_circuit
  (w : PairedWrapper.t) (read1 : Read) (read2 : option Read) :
  (PairedWrapper.min_affected w = 1 -> PairedWrapper.filter w read1 = true ->
   PairedWrapper.call w read1 read2 = Ok (DISCARD, bump w))
  /\
  (PairedWrapper.min_affected w = 2 -> PairedWrapper.filter w read1 = false ->
   PairedWrapper.call w read1 read2 = Ok (KEEP, w)).
Proof.
  split; intros Hm Hf.
  - now rewrite (PairedWrapper_call_1 w read1 read2 Hm), Hf.
  - now rewrite (PairedWrapper_call_2 w read1 read2 Hm), Hf.
Qed.

Lemma paired_wrapper_short_circuit_witness :
  PairedWrapper.call (PairedWrapper.mk 0 too_short_20 1) read_15 None
  = Ok (DISCARD, bump (PairedWrapper.mk 0 too_short_20 1))
  /\
  PairedWrapper.call (PairedWrapper.mk 0 too_short_20 2) read_25 (Some read_15)
  = Ok (KEEP, PairedWrapper.mk 0 too_short_20 2).
Proof.
  split.
  - apply (paired_wrapper_short_circuit (PairedWrapper.mk 0 too_short_20 1) read_15 None);
      reflexivity.
  - apply (paired_wrapper_short_circuit
             (PairedWrapper.mk 0 too_short_20 2) read_25 (Some read_15));
      reflexivity.
Defined.

(** ** Further properties of the predicates *)

Lemma len_nonneg (read : Read) : 0 <= len read.
Proof. unfold len. lia. Qed.

(** X4: when [minimum_length <= maximum_length + 1], no read is both too
    short and too long; in any case a read is too short for a minimum
    below 1 never, and too long for a negative maximum always. *)
Theorem length_filters_exclusive (minimum maximum : Z) (read : Read) :
  (minimum <= maximum + 1 ->
   TooShortReadFilter.call (TooShortReadFilter.init minimum) read
   && TooLongReadFilter.call (TooLongReadFilter.init maximum) read = false)
  /\
  (minimum <= 0 ->
   TooShortReadFilter.call (TooShortReadFilter.init minimum) read = KEEP)
  /\
  (maximum < 0 ->
   TooLongReadFilter.call (TooLongReadFilter.init maximum) read = DISCARD).
Proof.
  pose proof (len_nonneg read) as Hlen.
  unfold TooShortReadFilter.call, TooLongReadFilter.call; cbn.
  repeat split; intros H.
  - destruct (Z.ltb_spec (len read) minimum), (Z.ltb_spec maximum (len read));
      cbn; try reflexivity; lia.
  - destruct (Z.ltb_spec (len read) minimum); [lia | reflexivity].
  - destruct (Z.ltb_spec maximum (len read)); [reflexivity | lia].
Qed.

Lemma length_filters_exclusive_witness :
  TooShortReadFilter.call (TooShortReadFilter.init 20) read_15
  && TooLongReadFilter.call (TooLongReadFilter.init 30) read_15 = false.
Proof.
  apply (length_filters_exclusive 20 30 read_15). lia.
Defined.

(** X5: [UntrimmedFilter] and [TrimmedFilter] are complementary: on every
    read exactly one of the two says discard. *)
Theorem trimmed_untrimmed_complementary (read : Read) :
  UntrimmedFilter.call read = negb (TrimmedFilter.call read).
Proof.
  unfold UntrimmedFilter.call, TrimmedFilter.call.
  now destruct (trim_match read).
Qed.

(** Zero divided by any float is a zero or not a number: nothing
    non-negative is below it. *)
Lemma float_zero_div_not_above (t y : float) :
  PrimFloat.leb 0 t = true -> PrimFloat.ltb t (PrimFloat.div 0 y) = false.
Proof.
  rewrite FloatAxioms.leb_spec, FloatAxioms.ltb_spec, FloatAxioms.div_spec.
  change (Prim2SF 0) with (S754_zero false). unfold SF64div, SFdiv.
  destruct (Prim2SF y) as [sy|sy| |sy my ey];
    destruct (Prim2SF t) as [s|s| |s m e]; try destruct s; cbn;
    try congruence; intros; reflexivity.
Qed.

(** X6: a read without any ['N'] or ['n'] is kept by every N-content
    predicate that can be built, in proportion mode and in count mode, and
    whatever its length. *)
Theorem ncontent_keeps_read_without_N
  (t : float) (flt : NContentFilter.t) (read : Read)
  (Hinit : NContentFilter.init t = Ok flt)
  (Hn : count_N (sequence read) = 0) :
  NContentFilter.verdict flt read = KEEP.
Proof.
  unfold NContentFilter.init in Hinit.
  destruct (PrimFloat.leb 0 t) eqn:H0; [|discriminate].
  injection Hinit as <-.
  unfold NContentFilter.verdict, NContentFilter.n_count. cbn.
  rewrite count_lower_n, Hn.
  destruct (PrimFloat.ltb t 1).
  - destruct (len read =? 0); [reflexivity|].
    unfold truediv. change (float_of_int 0) with 0%float.
    now apply float_zero_div_not_above.
  - change (float_of_int 0) with 0%float. now apply float_leb_not_gt.
Qed.

Lemma ncontent_keeps_read_without_N_witness :
  NContentFilter.verdict (NContentFilter.mk true 0) (read_of "ACGTACGT") = KEEP.
Proof.
  apply (ncontent_keeps_read_without_N 0 (NContentFilter.mk true 0) (read_of "ACGTACGT"));
    reflexivity.
Defined.

(** ** Further properties of the factory *)

Lemma construct_failure (c : ctor_call) (e : exn) :
  construct c = Raise e <->
  exists t : float,
    c = NewNContentFilter t /\ PrimFloat.leb 0 t = false /\ e = AssertionError.
Proof.
  split.
  - destruct c as [| | |t| | |]; cbn; try discriminate.
    unfold NContentFilter.init. destruct (PrimFloat.leb 0 t) eqn:H0; cbn;
      [discriminate|].
    intros H. injection H as <-. now exists t.
  - intros (t & -> & H0 & ->). cbn. unfold NContentFilter.init. now rewrite H0.
Qed.

(** X7: the two ways, and the only ones, in which the factory raises.
    Either the predicate cannot be built, an N-content threshold that is
    not [>= 0], and the error is the [AssertionError] of the predicate,
    whatever the pairing mode and [min_affected]; or the predicate is
    built, the pairing mode is ["both"] and [min_affected] is neither 1 nor
    2, and the error is the [ValueError].  So in every other pairing mode
    [min_affected] is never checked. *)
Theorem factory_failure (self : FilterFactory.t) (c : ctor_call) (e : exn) :
  FilterFactory.call self c = Raise e <->
  (exists t : float,
      c = NewNContentFilter t /\ PrimFloat.leb 0 t = false /\ e = AssertionError)
  \/
  ((exists f : Predicate, construct c = Ok f) /\
   FilterFactory.paired self = PyStr "both" /\
   FilterFactory.min_affected self <> 1 /\
   FilterFactory.min_affected self <> 2 /\
   e = ValueError "min_affected must be 1 or 2").
Proof.
  rewrite <- construct_failure. unfold FilterFactory.call.
  destruct (construct c) as [f|e0]; cbn.
  - destruct (py_eq_str (FilterFactory.paired self) "both") eqn:Hp.
    + apply py_eq_str_true in Hp. unfold PairedWrapper.init.
      destruct (Z.eqb_spec (FilterFactory.min_affected self) 1) as [H1|H1];
        destruct (Z.eqb_spec (FilterFactory.min_affected self) 2) as [H2|H2]; cbn;
        split; try discriminate;
        try (intros [H | (_ & _ & N1 & N2 & _)]; [discriminate | congruence]).
      * intros H. injection H as <-. right. repeat split; eauto.
      * intros [H | (_ & _ & _ & _ & ->)]; [discriminate | reflexivity].
    + apply py_eq_str_false in Hp. split; [discriminate|].
      intros [H | (_ & Hb & _)]; [discriminate | contradiction].
  - split.
    + intros H. injection H as ->. now left.
    + intros [H | ((f & Hf) & _)]; [now injection H as -> | discriminate].
Qed.

Lemma factory_failure_witness :
  FilterFactory.call (FilterFactory.init (PyStr "both") 3) (NewTooShortReadFilter 20)
  = Raise (ValueError "min_affected must be 1 or 2").
Proof.
  apply (factory_failure (FilterFactory.init (PyStr "both") 3) (NewTooShortReadFilter 20)).
  right. repeat split; try discriminate. now exists too_short_20.
Defined.

(** ** Further properties of the chain: one evaluation *)

Lemma discards_reset (w : Wrapper) (read1 : Read) (read2 : option Read) :
  discards (reset w) read1 read2 = discards w read1 read2.
Proof.
  unfold discards, Wrapper_call. destruct w as [s|p]; cbn [reset].
  - rewrite !SingleWrapper_call_eq. cbn.
    now destruct (SingleWrapper.filter s read1).
  - run_call.
    destruct (PairedWrapper.filter p read1); cbn; case_tests;
      try (destruct read2 as [r2|]; cbn; try destruct (PairedWrapper.filter p r2));
      cbn; case_tests; try reflexivity; lia.
Qed.

Lemma reset_bump (w : Wrapper) : reset (Wrapper_bump w) = reset w.
Proof. now destruct w. Qed.

Lemma filtered_bump (w : Wrapper) :
  Wrapper_filtered (Wrapper_bump w) = Wrapper_filtered w + 1.
Proof. now destruct w. Qed.

(** The loop of [filter], by the verdict of the first wrapper. *)
Lemma filter_loop_cons (ft : filter_type) (w : Wrapper) (rest : OrderedDict)
  (read1 : Read) (read2 : option Read) :
  Filters.filter_loop ((ft, w) :: rest) read1 read2
  = if discards w read1 read2 then Ok (ft, (ft, Wrapper_bump w) :: rest)
    else '(dest, rest') <- Filters.filter_loop rest read1 read2 ;;
         Ok (dest, (ft, w) :: rest').
Proof.
  cbn [Filters.filter_loop]. rewrite Wrapper_call_eq. cbn [bind].
  now destruct (discards w read1 read2).
Qed.

Lemma config_cons (ft : filter_type) (w : Wrapper) (rest : OrderedDict) :
  config ((ft, w) :: rest) = (ft, reset w) :: config rest.
Proof. reflexivity. Qed.

Lemma total_filtered_cons (ft : filter_type) (w : Wrapper) (rest : OrderedDict) :
  total_filtered ((ft, w) :: rest) = Wrapper_filtered w + total_filtered rest.
Proof. reflexivity. Qed.

Lemma mem_cons (k k' : filter_type) (l : list filter_type) :
  mem k (k' :: l) = filter_type_eqb k' k || mem k l.
Proof. reflexivity. Qed.

Lemma filter_loop_run (items : OrderedDict) (read1 : Read) (read2 : option Read) :
  exists (dest : filter_type) (items' : OrderedDict),
    Filters.filter_loop items read1 read2 = Ok (dest, items') /\
    config items' = config items /\
    (dest = NoFilter \/ In dest (keys items)) /\
    (mem NoFilter (keys items) = false ->
     total_filtered items'
     = total_filtered items + (if filter_type_eqb dest NoFilter then 0 else 1)).
Proof.
  induction items as [|[ft w] rest IH].
  - exists NoFilter, []. cbn. repeat split; auto.
  - rewrite filter_loop_cons. change (keys ((ft, w) :: rest)) with (ft :: keys rest).
    rewrite mem_cons. destruct (discards w read1 read2).
    + exists ft, ((ft, Wrapper_bump w) :: rest).
      rewrite !config_cons, !total_filtered_cons, reset_bump, filtered_bump.
      repeat split; auto.
      * right. now left.
      * intros Hm. destruct (filter_type_eqb ft NoFilter); [discriminate | lia].
    + destruct IH as (dest & rest' & -> & Hc & Hd & Ht). cbn [bind].
      exists dest, ((ft, w) :: rest').
      rewrite !config_cons, !total_filtered_cons, Hc. repeat split; auto.
      * destruct Hd as [Hd|Hd]; [now left | right; now right].
      * intros Hm. destruct (filter_type_eqb ft NoFilter); [discriminate|].
        rewrite (Ht Hm). lia.
Qed.

Lemma keys_config (d : OrderedDict) : keys (config d) = keys d.
Proof. unfold keys, config. rewrite map_map. now apply map_ext. Qed.

Lemma getitem_config (d : OrderedDict) (k : filter_type) :
  getitem (config d) k = option_map reset (getitem d k).
Proof.
  induction d as [|[k' v] rest IH]; cbn; [reflexivity|].
  now destruct (filter_type_eqb k' k).
Qed.

(** X8: [filter] returns for every chain and record, and what it returns is
    [NoFilter] or a registered identity.  The chain afterwards has the same
    identities in the same order, each with the same wrapper class,
    predicate and threshold, and the same factory: only counters move, and
    the answers of [in] do not change. *)
Theorem filter_preserves_registration
  (self : Filters.t) (read1 : Read) (read2 : option Read) :
  exists (dest : filter_type) (self' : Filters.t),
    Filters.filter self read1 read2 = Ok (dest, self') /\
    (dest = NoFilter \/ Filters.contains self dest = true) /\
    config (Filters.filters self') = config (Filters.filters self) /\
    keys (Filters.filters self') = keys (Filters.filters self) /\
    Filters.filter_factory self' = Filters.filter_factory self /\
    (forall ft : filter_type, Filters.contains self' ft = Filters.contains self ft).
Proof.
  destruct self as [items ff]. unfold Filters.filter, Filters.contains. cbn.
  destruct (filter_loop_run items read1 read2) as (dest & items' & -> & Hc & Hd & _).
  cbn. exists dest, (Filters.mk items' ff). cbn.
  assert (Hg : forall ft, getitem items' ft = None <-> getitem items ft = None).
  { intros ft. pose proof (getitem_config items' ft) as H1.
    pose proof (getitem_config items ft) as H2. rewrite Hc, H2 in H1.
    destruct (getitem items' ft), (getitem items ft); cbn in H1;
      split; intros; congruence. }
  assert (Hk : keys items' = keys items)
    by now rewrite <- (keys_config items'), Hc, keys_config.
  repeat split; auto.
  - destruct Hd as [Hd|Hd]; [now left | right].
    clear - Hd. induction items as [|[k v] rest IH]; cbn in *; [contradiction|].
    destruct (filter_type_eqb_spec k dest); [reflexivity|].
    destruct Hd as [Hd|Hd]; [contradiction | now apply IH].
  - intros ft. specialize (Hg ft).
    destruct (getitem items' ft), (getitem items ft); try reflexivity;
      destruct Hg as [H1 H2]; try (now discriminate H1); now discriminate H2.
Qed.

(** ** Further properties of the chain: runs of records *)

Lemma filter_loop_counter (items : OrderedDict) (read1 : Read) (read2 : option Read)
  (k : filter_type) :
  NoDup (keys items) -> k <> NoFilter ->
  forall (dest : filter_type) (items' : OrderedDict),
    Filters.filter_loop items read1 read2 = Ok (dest, items') ->
    option_map Wrapper_filtered (getitem items' k)
    = option_map (fun n => n + (if filter_type_eqb k dest then 1 else 0))
        (option_map Wrapper_filtered (getitem items k)).
Proof.
  intros Hnd Hk. induction items as [|[ft w] rest IH]; intros dest items' Hrun.
  - cbn in Hrun. injection Hrun as <- <-. reflexivity.
  - change (keys ((ft, w) :: rest)) with (ft :: keys rest) in Hnd.
    apply NoDup_cons_iff in Hnd. destruct Hnd as [Hnotin Hnd].
    rewrite filter_loop_cons in Hrun. destruct (discards w read1 read2).
    + injection Hrun as <- <-. cbn [getitem].
      destruct (filter_type_eqb_spec ft k) as [->|Hne]; cbn.
      * now rewrite filter_type_eqb_refl, filtered_bump.
      * destruct (filter_type_eqb_spec k ft); [congruence|].
        destruct (getitem rest k); cbn; [f_equal; lia | reflexivity].
    + destruct (filter_loop_run rest read1 read2) as (d & rest' & Hloop & _ & Hd & _).
      rewrite Hloop in Hrun. cbn in Hrun. injection Hrun as <- <-.
      cbn [getitem]. destruct (filter_type_eqb_spec ft k) as [->|Hne]; cbn.
      * destruct (filter_type_eqb_spec k d) as [<-|_]; [|f_equal; lia].
        destruct Hd as [Hd|Hd]; [congruence | contradiction].
      * exact (IH Hnd _ _ Hloop).
Qed.

Lemma filter_loop_same_config (a b : OrderedDict) (read1 : Read) (read2 : option Read) :
  config a = config b ->
  exists (dest : filter_type) (a' b' : OrderedDict),
    Filters.filter_loop a read1 read2 = Ok (dest, a') /\
    Filters.filter_loop b read1 read2 = Ok (dest, b').
Proof.
  revert b. induction a as [|[ka wa] ra IH]; intros [|[kb wb] rb] Hc;
    try discriminate.
  - exists NoFilter, [], []. split; reflexivity.
  - rewrite !config_cons in Hc. injection Hc as Hk Hw Hr. subst kb.
    rewrite !filter_loop_cons.
    rewrite <- (discards_reset wb), <- Hw, discards_reset.
    destruct (discards wa read1 read2).
    + do 3 eexists. split; reflexivity.
    + destruct (IH rb Hr) as (d & a' & b' & -> & ->). cbn.
      do 3 eexists. split; reflexivity.
Qed.

Lemma routed_to_cons (k d : filter_type) (dests : list filter_type) :
  routed_to k (d :: dests) = (if filter_type_eqb k d then 1 else 0) + routed_to k dests.
Proof.
  unfold routed_to. cbn. destruct (filter_type_eqb k d); cbn [List.length]; lia.
Qed.

Lemma routed_away_cons (d : filter_type) (dests : list filter_type) :
  routed_away (d :: dests)
  = (if filter_type_eqb d NoFilter then 0 else 1) + routed_away dests.
Proof.
  unfold routed_away. cbn. destruct (filter_type_eqb d NoFilter); cbn [List.length negb]; lia.
Qed.

(** One [filter] call, from the loop. *)
Lemma filter_inv (self : Filters.t) (read1 : Read) (read2 : option Read) :
  exists (dest : filter_type) (items' : OrderedDict),
    Filters.filter_loop (Filters.filters self) read1 read2 = Ok (dest, items') /\
    Filters.filter self read1 read2
    = Ok (dest, Filters.mk items' (Filters.filter_factory self)) /\
    config items' = config (Filters.filters self).
Proof.
  destruct (filter_loop_run (Filters.filters self) read1 read2)
    as (dest & items' & Hloop & Hc & _).
  exists dest, items'. unfold Filters.filter. rewrite Hloop. cbn. auto.
Qed.

(** X9: in a chain without a repeated key, the counter of every registered
    identity other than [NoFilter] grows, over a run of records, by the
    number of records of the run that [filter] routed to that identity.
    The run returns one destination per record. *)
Theorem counters_count_routed_records
  (records : list (Read * option Read)) (self : Filters.t) (k : filter_type)
  (Hnd : NoDup (keys (Filters.filters self))) (Hk : k <> NoFilter) :
  exists (dests : list filter_type) (self' : Filters.t),
    filter_all self records = Ok (dests, self') /\
    List.length dests = List.length records /\
    counter_of self' k
    = option_map (fun n => n + routed_to k dests) (counter_of self k).
Proof.
  revert self Hnd. induction records as [|[r1 r2] rest IH]; intros self Hnd.
  - exists [], self. cbn. repeat split; auto.
    unfold counter_of. destruct (getitem (Filters.filters self) k); cbn;
      [f_equal; unfold routed_to; cbn; lia | reflexivity].
  - destruct (filter_inv self r1 r2) as (d & items1 & Hloop & Hf & Hc).
    pose proof (filter_loop_counter _ r1 r2 k Hnd Hk _ _ Hloop) as Hcount.
    assert (Hnd1 : NoDup (keys (Filters.filters
                     (Filters.mk items1 (Filters.filter_factory self))))).
    { cbn [Filters.filters]. now rewrite <- (keys_config items1), Hc, keys_config. }
    destruct (IH _ Hnd1) as (dests & self' & Hrun & Hlen & Hrest).
    exists (d :: dests), self'. cbn [filter_all]. rewrite Hf. cbn [bind].
    rewrite Hrun. cbn [bind]. repeat split; [cbn; now rewrite Hlen|].
    rewrite Hrest. unfold counter_of at 1. cbn [Filters.filters].
    rewrite Hcount. unfold counter_of.
    destruct (getitem (Filters.filters self) k); cbn; [|reflexivity].
    f_equal. rewrite routed_to_cons. lia.
Qed.

Lemma counters_count_routed_records_witness :
  exists (dests : list filter_type) (self' : Filters.t),
    filter_all chain_single records_example = Ok (dests, self') /\
    List.length dests = List.length records_example /\
    counter_of self' TooShortReadFilter
    = option_map (fun n => n + routed_to TooShortReadFilter dests)
        (counter_of chain_single TooShortReadFilter).
Proof.
  apply (counters_count_routed_records records_example chain_single TooShortReadFilter).
  - repeat constructor; cbn; intuition discriminate.
  - discriminate.
Defined.

(** X10: in a chain where [NoFilter] is not registered, the sum of all
    counters grows, over a run of records, by the number of records that
    [filter] did not route to [NoFilter]: every discarded record is counted
    once, and no kept record is counted. *)
Theorem counters_sum_to_discarded_records
  (records : list (Read * option Read)) (self : Filters.t)
  (Hno : mem NoFilter (keys (Filters.filters self)) = false) :
  exists (dests : list filter_type) (self' : Filters.t),
    filter_all self records = Ok (dests, self') /\
    total_filtered (Filters.filters self')
    = total_filtered (Filters.filters self) + routed_away dests.
Proof.
  revert self Hno. induction records as [|[r1 r2] rest IH]; intros self Hno.
  - exists [], self. cbn. split; [reflexivity|]. unfold routed_away. cbn. lia.
  - destruct (filter_loop_run (Filters.filters self) r1 r2)
      as (d & items1 & Hloop & Hc & _ & Ht).
    assert (Hno1 : mem NoFilter (keys (Filters.filters
                     (Filters.mk items1 (Filters.filter_factory self)))) = false).
    { cbn [Filters.filters]. now rewrite <- (keys_config items1), Hc, keys_config. }
    destruct (IH _ Hno1) as (dests & self' & Hrun & Hsum).
    exists (d :: dests), self'. cbn [filter_all]. unfold Filters.filter.
    rewrite Hloop. cbn [bind]. rewrite Hrun. cbn [bind].
    split; [reflexivity|]. rewrite Hsum. cbn [Filters.filters].
    rewrite (Ht Hno), routed_away_cons. lia.
Qed.

Lemma counters_sum_to_discarded_records_witness :
  exists (dests : list filter_type) (self' : Filters.t),
    filter_all chain_single records_example = Ok (dests, self') /\
    total_filtered (Filters.filters self')
    = total_filtered (Filters.filters chain_single) + routed_away dests.
Proof.
  apply (counters_sum_to_discarded_records records_example chain_single).
  reflexivity.
Defined.

(** X11: the destination of a record does not depend on the records
    evaluated before it: a run returns, for each record, the destination
    that [filter] gives it on the chain the run started from, and leaves
    the chain with the same identities, wrappers and predicates. *)
Theorem destinations_independent_of_history
  (records : list (Read * option Read)) (self : Filters.t) :
  exists self' : Filters.t,
    filter_all self records = Ok (map (destination self) records, self') /\
    config (Filters.filters self') = config (Filters.filters self).
Proof.
  assert (G : forall (start : Filters.t),
             config (Filters.filters start) = config (Filters.filters self) ->
             exists self' : Filters.t,
               filter_all start records = Ok (map (destination self) records, self') /\
               config (Filters.filters self') = config (Filters.filters self)).
  { induction records as [|[r1 r2] rest IH]; intros start Hs.
    - exists start. split; [reflexivity | exact Hs].
    - destruct (filter_loop_same_config _ _ r1 r2 Hs)
        as (d & a' & b' & Ha & Hb).
      destruct (filter_loop_run (Filters.filters start) r1 r2)
        as (d0 & items1 & Hloop & Hc & _).
      rewrite Ha in Hloop. injection Hloop as <- <-.
      destruct (IH (Filters.mk a' (Filters.filter_factory start)))
        as (self' & Hrun & Hcfg); [cbn [Filters.filters]; congruence|].
      assert (Hd : destination self (r1, r2) = d)
        by (unfold destination, Filters.filter; cbn [fst snd]; now rewrite Hb).
      exists self'. cbn [filter_all map]. rewrite Hd. unfold Filters.filter.
      rewrite Ha. cbn [bind]. rewrite Hrun. cbn [bind].
      split; [reflexivity | exact Hcfg]. }
  apply G. reflexivity.
Qed.

Lemma filter_loop_NoFilter_iff (items : OrderedDict) (read1 : Read) (read2 : option Read) :
  mem NoFilter (keys items) = false ->
  forall (dest : filter_type) (items' : OrderedDict),
    Filters.filter_loop items read1 read2 = Ok (dest, items') ->
    (dest = NoFilter <->
     Forall (fun item => discards (snd item) read1 read2 = KEEP) items).
Proof.
  induction items as [|[ft w] rest IH]; intros Hno dest items' Hrun.
  - cbn in Hrun. injection Hrun as <- <-. split; auto.
  - change (keys ((ft, w) :: rest)) with (ft :: keys rest) in Hno.
    rewrite mem_cons in Hno. apply orb_false_iff in Hno. destruct Hno as [Hft Hrest].
    rewrite filter_loop_cons in Hrun.
    destruct (discards w read1 read2) eqn:Hd; cbn [bind] in Hrun.
    + injection Hrun as <- <-. split.
      * intros ->. now rewrite filter_type_eqb_refl in Hft.
      * intros H. inversion H; subst. unfold KEEP in *. cbn in *. congruence.
    + destruct (filter_loop_run rest read1 read2) as (d & rest' & Hloop & _).
      rewrite Hloop in Hrun. cbn in Hrun. injection Hrun as <- <-.
      rewrite (IH Hrest _ _ Hloop). split.
      * intros H. now constructor.
      * intros H. now inversion H.
Qed.

(** X12: with [NoFilter] not registered, [filter] returns [NoFilter] for a
    record exactly when no registered wrapper would discard it. *)
Theorem kept_iff_no_wrapper_discards
  (self : Filters.t) (read1 : Read) (read2 : option Read)
  (Hno : mem NoFilter (keys (Filters.filters self)) = false) :
  destination self (read1, read2) = NoFilter <->
  Forall (fun item => discards (snd item) read1 read2 = KEEP) (Filters.filters self).
Proof.
  destruct (filter_inv self read1 read2) as (d & items' & Hloop & Hf & _).
  unfold destination. cbn [fst snd]. rewrite Hf.
  exact (filter_loop_NoFilter_iff _ read1 read2 Hno _ _ Hloop).
Qed.

Lemma kept_iff_no_wrapper_discards_witness :
  destination chain_single (read_of "ACGTACGTACGTACGTACGTACGT", None) = NoFilter <->
  Forall (fun item => discards (snd item) (read_of "ACGTACGTACGTACGTACGTACGT") None = KEEP)
         (Filters.filters chain_single).
Proof.
  apply (kept_iff_no_wrapper_discards chain_single
           (read_of "ACGTACGTACGTACGTACGTACGT") None).
  reflexivity.
Defined.

(** ** Further properties of the chain: registration *)

Lemma factory_wrapper_shape (ff : FilterFactory.t) (c : ctor_call) (w : Wrapper) :
  FilterFactory.call ff c = Ok w ->
  (FilterFactory.paired ff = PyStr "both" ->
   exists p : PairedWrapper.t,
     w = Paired p /\
     PairedWrapper.min_affected p = FilterFactory.min_affected ff /\
     (FilterFactory.min_affected ff = 1 \/ FilterFactory.min_affected ff = 2))
  /\
  (FilterFactory.paired ff <> PyStr "both" -> is_single w = true).
Proof.
  unfold FilterFactory.call. destruct (construct c) as [f|e]; cbn; [|discriminate].
  destruct (py_eq_str (FilterFactory.paired ff) "both") eqn:Hp.
  - unfold PairedWrapper.init.
    destruct (Z.eqb_spec (FilterFactory.min_affected ff) 1) as [H1|H1];
      destruct (Z.eqb_spec (FilterFactory.min_affected ff) 2) as [H2|H2]; cbn;
      try discriminate; intros H; injection H as <-;
      (split; [intros _; eexists; repeat split; auto
              | intros Hn; apply py_eq_str_true in Hp; contradiction]).
  - intros H. injection H as <-. split; [|reflexivity].
    intros Hb. apply py_eq_str_true in Hb. congruence.
Qed.

Lemma setitem_Forall (P : filter_type * Wrapper -> Prop) (d : OrderedDict)
  (k : filter_type) (v : Wrapper) :
  Forall P d -> P (k, v) -> Forall P (setitem d k v).
Proof.
  intros Hd Hkv. induction d as [|[k' v'] rest IH]; cbn.
  - now constructor.
  - inversion Hd; subst. destruct (filter_type_eqb k' k); constructor; auto.
Qed.

Lemma add_filters_Forall (P : filter_type * Wrapper -> Prop)
  (calls : list ctor_call) (self self' : Filters.t) :
  (forall (c : ctor_call) (w : Wrapper),
      FilterFactory.call (Filters.filter_factory self) c = Ok w -> P (class_of c, w)) ->
  Forall P (Filters.filters self) ->
  Filters.add_filters self calls = Ok self' ->
  Forall P (Filters.filters self').
Proof.
  revert self. induction calls as [|c rest IH]; intros self HP Hself Hrun;
    cbn [Filters.add_filters] in Hrun.
  - now injection Hrun as <-.
  - destruct (Filters.add_filter self c) as [s1|e] eqn:E; cbn [bind] in Hrun;
      [|discriminate].
    destruct (add_filter_inv _ _ _ E) as (w & Hw & ->).
    apply (IH (Filters.mk (setitem (Filters.filters self) (class_of c) w)
                          (Filters.filter_factory self))); [exact HP | | exact Hrun].
    cbn [Filters.filters]. apply setitem_Forall; auto.
Qed.

(** X13: every wrapper of a chain registered from a new one is what the
    factory returns for a call of the class it is stored under, with a
    counter of zero.  If the pairing mode is ["both"] they are all paired
    wrappers holding the factory's threshold, which is then 1 or 2;
    otherwise they are all single wrappers. *)
Theorem registered_wrappers_come_from_factory
  (ff : FilterFactory.t) (calls : list ctor_call) (self : Filters.t)
  (Hrun : Filters.add_filters (Filters.init ff) calls = Ok self) :
  Forall (fun item =>
            (exists c : ctor_call,
                class_of c = fst item /\ FilterFactory.call ff c = Ok (snd item)) /\
            Wrapper_filtered (snd item) = 0 /\
            (FilterFactory.paired ff = PyStr "both" ->
             exists p : PairedWrapper.t,
               snd item = Paired p /\
               PairedWrapper.min_affected p = FilterFactory.min_affected ff /\
               (FilterFactory.min_affected ff = 1 \/ FilterFactory.min_affected ff = 2)) /\
            (FilterFactory.paired ff <> PyStr "both" -> is_single (snd item) = true))
         (Filters.filters self).
Proof.
  apply (add_filters_Forall _ calls (Filters.init ff) self); [| constructor | exact Hrun].
  cbn. intros c w Hw. split; [now exists c|].
  split; [exact (factory_counter_zero _ _ _ Hw)|].
  exact (factory_wrapper_shape _ _ _ Hw).
Qed.

Lemma registered_wrappers_come_from_factory_witness :
  Forall (fun item =>
            (exists c : ctor_call,
                class_of c = fst item /\
                FilterFactory.call factory_both_1 c = Ok (snd item)) /\
            Wrapper_filtered (snd item) = 0 /\
            (FilterFactory.paired factory_both_1 = PyStr "both" ->
             exists p : PairedWrapper.t,
               snd item = Paired p /\
               PairedWrapper.min_affected p = FilterFactory.min_affected factory_both_1 /\
               (FilterFactory.min_affected factory_both_1 = 1 \/
                FilterFactory.min_affected factory_both_1 = 2)) /\
            (FilterFactory.paired factory_both_1 <> PyStr "both" ->
             is_single (snd item) = true))
         (Filters.filters chain_example).
Proof.
  apply (registered_wrappers_come_from_factory factory_both_1 calls_example chain_example).
  reflexivity.
Defined.

Lemma filter_loop_single (items : OrderedDict) (read1 : Read) (read2 : option Read) :
  Forall (fun item => is_single (snd item) = true) items ->
  Filters.filter_loop items read1 read2 = Filters.filter_loop items read1 None.
Proof.
  induction 1 as [|[ft w] rest Hw _ IH]; [reflexivity|].
  rewrite !filter_loop_cons, IH.
  destruct w as [s|p]; [|discriminate].
  unfold discards, Wrapper_call. now rewrite !SingleWrapper_call_eq.
Qed.

(** X14: a chain registered through a factory whose pairing mode is not
    ["both"] ignores the second read altogether: [filter] returns the same
    destination and leaves the same counters whether the second read is
    present, absent or anything else. *)
Theorem legacy_chain_ignores_second_read
  (ff : FilterFactory.t) (calls : list ctor_call) (self : Filters.t)
  (read1 : Read) (read2 : option Read)
  (Hmode : FilterFactory.paired ff <> PyStr "both")
  (Hrun : Filters.add_filters (Filters.init ff) calls = Ok self) :
  Filters.filter self read1 read2 = Filters.filter self read1 None.
Proof.
  unfold Filters.filter. rewrite (filter_loop_single _ read1 read2); [reflexivity|].
  apply (add_filters_Forall _ calls (Filters.init ff) self); [| constructor | exact Hrun].
  cbn. intros c w Hw. now apply (factory_wrapper_shape _ _ _ Hw).
Qed.

Lemma legacy_chain_ignores_second_read_witness :
  Filters.filter chain_single read_25 (Some read_15)
  = Filters.filter chain_single read_25 None.
Proof.
  apply (legacy_chain_ignores_second_read factory_single
           [NewTooShortReadFilter 20; NewNContentFilter 0.2]).
  - cbn. discriminate.
  - reflexivity.
Defined.

Lemma first_occurrences_In (k : filter_type) (l : list filter_type) :
  In k (first_occurrences l) <-> In k l.
Proof.
  induction l as [|a l IH]; cbn; [tauto|].
  rewrite filter_In, IH.
  destruct (filter_type_eqb_spec k a) as [->|Hne]; cbn; intuition congruence.
Qed.

Lemma contains_In (self : Filters.t) (ft : filter_type) :
  Filters.contains self ft = true <-> In ft (keys (Filters.filters self)).
Proof.
  unfold Filters.contains.
  induction (Filters.filters self) as [|[k v] rest IH]; cbn.
  - split; [discriminate | contradiction].
  - destruct (filter_type_eqb_spec k ft) as [->|Hne].
    + split; auto.
    + rewrite IH. split; [now right | intros [H|H]; [contradiction | exact H]].
Qed.

(** X15: after a run of [add_filter] calls on a new chain, an identity is
    [in] the chain exactly when one of the calls was for its class; so a
    new chain contains nothing. *)
Theorem contains_after_registration
  (ff : FilterFactory.t) (calls : list ctor_call) (self : Filters.t)
  (ft : filter_type)
  (Hrun : Filters.add_filters (Filters.init ff) calls = Ok self) :
  Filters.contains self ft = true <-> In ft (map class_of calls).
Proof.
  destruct (add_filters_keys _ _ _ Hrun) as [_ Hkeys]. cbn in Hkeys.
  rewrite fresh_of_nil in Hkeys.
  now rewrite contains_In, Hkeys, first_occurrences_In.
Qed.

Lemma contains_after_registration_witness :
  Filters.contains chain_example NContentFilter = true <->
  In NContentFilter (map class_of calls_example).
Proof.
  apply (contains_after_registration factory_both_1 calls_example chain_example).
  reflexivity.
Defined.

Lemma setitem_twice (d : OrderedDict) (k : filter_type) (v v' : Wrapper) :
  setitem (setitem d k v) k v' = setitem d k v'.
Proof.
  induction d as [|[k' w] rest IH]; cbn.
  - now rewrite filter_type_eqb_refl.
  - destruct (filter_type_eqb k' k) eqn:E; cbn.
    + now rewrite filter_type_eqb_refl.
    + now rewrite E, IH.
Qed.

(** X16: registering twice in a row for the same class leaves the chain
    that the second call alone leaves: the first wrapper is dropped, the
    place of the identity is the same. *)
Theorem register_twice_keeps_last (self : Filters.t) (c c' : ctor_call) :
  class_of c = class_of c' ->
  (exists w : Wrapper, FilterFactory.call (Filters.filter_factory self) c = Ok w) ->
  Filters.add_filters self [c; c'] = Filters.add_filters self [c'].
Proof.
  intros Hk [w Hw]. cbn. unfold Filters.add_filter. rewrite Hw. cbn.
  destruct (FilterFactory.call (Filters.filter_factory self) c') as [w'|e];
    cbn; [|reflexivity].
  now rewrite Hk, setitem_twice.
Qed.

Lemma register_twice_keeps_last_witness :
  Filters.add_filters chain_single [NewTooShortReadFilter 5; NewTooShortReadFilter 30]
  = Filters.add_filters chain_single [NewTooShortReadFilter 30].
Proof.
  apply (register_twice_keeps_last chain_single). 
  - reflexivity.
  - eexists. reflexivity.
Defined.

Lemma mem_false_notin (k : filter_type) (l : list filter_type) :
  mem k l = false <-> ~ In k l.
Proof. rewrite <- mem_In. now destruct (mem k l). Qed.

(** X17: whether a record is kept does not depend on the order of
    registration.  For two chains holding the same items in any order,
    with [NoFilter] not registered, [filter] returns [NoFilter] on one
    exactly when it does on the other; the order only decides which
    identity a discarded record goes to. *)
Theorem kept_whatever_the_order
  (a b : Filters.t) (read1 : Read) (read2 : option Read)
  (Hperm : Permutation (Filters.filters a) (Filters.filters b))
  (Hno : mem NoFilter (keys (Filters.filters a)) = false) :
  destination a (read1, read2) = NoFilter <-> destination b (read1, read2) = NoFilter.
Proof.
  assert (Hnob : mem NoFilter (keys (Filters.filters b)) = false).
  { apply mem_false_notin. apply mem_false_notin in Hno. intros Hin. apply Hno.
    unfold keys in *.
    apply (Permutation_in _ (Permutation_sym (Permutation_map fst Hperm)) Hin). }
  destruct (filter_inv a read1 read2) as (da & ia & Hla & Hfa & _).
  destruct (filter_inv b read1 read2) as (db & ib & Hlb & Hfb & _).
  unfold destination. cbn [fst snd]. rewrite Hfa, Hfb.
  rewrite (filter_loop_NoFilter_iff _ read1 read2 Hno _ _ Hla).
  rewrite (filter_loop_NoFilter_iff _ read1 read2 Hnob _ _ Hlb).
  split; intros H.
  - exact (Permutation_Forall Hperm H).
  - exact (Permutation_Forall (Permutation_sym Hperm) H).
Qed.

Lemma kept_whatever_the_order_witness :
  destination chain_single (read_25, None) = NoFilter <->
  destination (Filters.mk (rev (Filters.filters chain_single)) factory_single)
              (read_25, None) = NoFilter.
Proof.
  apply (kept_whatever_the_order chain_single
           (Filters.mk (rev (Filters.filters chain_single)) factory_single)
           read_25 None).
  - apply Permutation_rev.
  - reflexivity.
Defined.

(** X18: in a chain registered from a new one through a factory with
    pairing mode ["both"] and [min_affected = 1], a record without a second
    read never passes: [filter] routes it to the identity registered
    first, whatever the first read is. *)
Theorem both_mode_any_routes_unpaired_record_to_first
  (ff : FilterFactory.t) (calls : list ctor_call) (self : Filters.t) (read1 : Read)
  (ft : filter_type) (w : Wrapper) (rest : OrderedDict)
  (Hmode : FilterFactory.paired ff = PyStr "both")
  (Hany : FilterFactory.min_affected ff = 1)
  (Hrun : Filters.add_filters (Filters.init ff) calls = Ok self)
  (Hfirst : Filters.filters self = (ft, w) :: rest) :
  destination self (read1, None) = ft.
Proof.
  assert (HF : Forall (fun item => exists p : PairedWrapper.t,
                           snd item = Paired p /\ PairedWrapper.min_affected p = 1)
                      (Filters.filters self)).
  { apply (add_filters_Forall _ calls (Filters.init ff) self);
      [| constructor | exact Hrun].
    cbn. intros c w0 Hw.
    destruct (proj1 (factory_wrapper_shape _ _ _ Hw) Hmode) as (p & -> & Hp & _).
    exists p. split; [reflexivity | congruence]. }
  rewrite Hfirst in HF. inversion HF as [|x l (p & Hw & Hp) _]; subst.
  cbn in Hw. subst w.
  unfold destination, Filters.filter. cbn [fst snd]. rewrite Hfirst, filter_loop_cons.
  assert (Hd : discards (Paired p) read1 None = true).
  { unfold discards, Wrapper_call. rewrite (PairedWrapper_call_1 p read1 None Hp).
    cbn. now rewrite orb_true_r. }
  now rewrite Hd.
Qed.

Lemma both_mode_any_routes_unpaired_record_to_first_witness :
  destination chain_example (read_of "ACGTACGTACGTACGTACGTACGT", None)
  = TooShortReadFilter.
Proof.
  apply (both_mode_any_routes_unpaired_record_to_first
           factory_both_1 calls_example chain_example
           (read_of "ACGTACGTACGTACGTACGTACGT") TooShortReadFilter
           (Paired (PairedWrapper.mk 0
                      (TooShortReadFilter.call (TooShortReadFilter.init 10)) 1))
           [(NContentFilter,
             Paired (PairedWrapper.mk 0
                       (NContentFilter.verdict (NContentFilter.mk true 0.2)) 1))]);
    reflexivity.
Defined.
